(** * AlertDetector: anomaly rules over one series of gas-tank readings

    Shallow embedding of [src/Apostilas/alert_detector.py] (class
    [AlertDetector]) and the properties of its specification.

    Modelling conventions.
    - In the main development Python floats and ints are idealised as
      exact rationals ([Q]); the only non-finite float the source itself
      creates, [float("inf")], is kept as [PosInf].  This leaves out
      rounding, overflow to infinity, NaN and infinities handed in by the
      caller, and the interpreter's limits on the size of a list (a window
      of 2^63 or more raises [MemoryError] or [OverflowError] while the
      pad is built).  A number proved there is the exact value, which
      the float of a run approximates; flags, answers and exceptions are
      stated through comparisons on the columns the code itself stores,
      and for arguments that are ints or finite floats.
    - Where an outcome turns on rounding or on NaN, the methods concerned
      are embedded a second time over binary64 floats, in the module
      [Binary64], and evaluated there.
    - The detector object is a record of optional attributes: [None] in an
      attribute field means that the attribute has not been assigned yet
      ([hasattr] is false and reading it raises [AttributeError]).  The
      class attribute [data = None] is the field [data] holding [None].
    - Methods are computations in a state-and-exception monad over the
      detector; an exception keeps the state reached when it was raised.
    - [print] calls are diagnostics only and are not modelled. *)

From Stdlib Require Import String ZArith QArith Qabs List Bool Lia Lqa.
From Stdlib Require Import Uint63 PrimFloat.
Import ListNotations.
Open Scope Q_scope.
Set Warnings "-inexact-float".

(** ** Numbers *)

(** [x < y] on floats, as a boolean. *)
Definition Qltb (x y : Q) : bool := negb (Qle_bool y x).

(** A float that may be [float("inf")]. *)
Inductive bound : Type :=
| Finite (q : Q)
| PosInf.

(** [b <= q], [b < q] and [q < b] for a possibly infinite [b]. *)
Definition bound_leb (b : bound) (q : Q) : bool :=
  match b with Finite u => Qle_bool u q | PosInf => false end.

Definition bound_gtb (q : Q) (b : bound) : bool :=
  match b with Finite u => Qltb u q | PosInf => false end.


(** Arguments a caller may hand to a setter: an int, a finite float, or
    something that is no number ([Binary64] takes up the float NaN). *)
Inductive pyval : Type :=
| PyInt (z : Z)
| PyFloat (q : Q)
| PyStr (s : string)
| PyNone.

(** [isinstance(v, float) or isinstance(v, int)], with the number. *)
Definition as_number (v : pyval) : option Q :=
  match v with
  | PyInt z => Some (inject_Z z)
  | PyFloat q => Some q
  | _ => None
  end.

(** [isinstance(v, int)], with the integer. *)
Definition as_int (v : pyval) : option Z :=
  match v with
  | PyInt z => Some z
  | _ => None
  end.

(** ** The data frame and the detector object *)

(** The frame: the required column ['values'] and the columns the
    detector adds ([None]: the column is absent). *)
Record DataFrame : Type := mkDataFrame {
  values : list Q;
  slow_ma : option (list Q);
  fast_ma : option (list Q);
  delta_ma : option (list Q);
  maxmin_alert : option (list Z);
  delta_ma_alert : option (list Z);
  plateau_alert : option (list Z);
  alert : option (list bool)
}.

Definition with_slow_ma (c : list Q) (df : DataFrame) : DataFrame :=
  mkDataFrame (values df) (Some c) (fast_ma df) (delta_ma df)
    (maxmin_alert df) (delta_ma_alert df) (plateau_alert df) (alert df).

Definition with_fast_ma (c : list Q) (df : DataFrame) : DataFrame :=
  mkDataFrame (values df) (slow_ma df) (Some c) (delta_ma df)
    (maxmin_alert df) (delta_ma_alert df) (plateau_alert df) (alert df).

Definition with_delta_ma (c : list Q) (df : DataFrame) : DataFrame :=
  mkDataFrame (values df) (slow_ma df) (fast_ma df) (Some c)
    (maxmin_alert df) (delta_ma_alert df) (plateau_alert df) (alert df).

Definition with_maxmin_alert (c : list Z) (df : DataFrame) : DataFrame :=
  mkDataFrame (values df) (slow_ma df) (fast_ma df) (delta_ma df)
    (Some c) (delta_ma_alert df) (plateau_alert df) (alert df).

Definition with_delta_ma_alert (c : list Z) (df : DataFrame) : DataFrame :=
  mkDataFrame (values df) (slow_ma df) (fast_ma df) (delta_ma df)
    (maxmin_alert df) (Some c) (plateau_alert df) (alert df).

Definition with_plateau_alert (c : list Z) (df : DataFrame) : DataFrame :=
  mkDataFrame (values df) (slow_ma df) (fast_ma df) (delta_ma df)
    (maxmin_alert df) (delta_ma_alert df) (Some c) (alert df).

Definition with_alert (c : list bool) (df : DataFrame) : DataFrame :=
  mkDataFrame (values df) (slow_ma df) (fast_ma df) (delta_ma df)
    (maxmin_alert df) (delta_ma_alert df) (plateau_alert df) (Some c).

(** A frame as the caller supplies it: only the readings. *)
Definition frame_of (vs : list Q) : DataFrame :=
  mkDataFrame vs None None None None None None None.

Record AlertDetector : Type := mkAlertDetector {
  data : option DataFrame;
  lower_limit : option Q;
  upper_limit : option bound;
  slow_mavg_window : option Z;
  fast_mavg_window : option Z;
  mavg_delta : option Q;
  plateau_length : option Z;
  plateau_delta : option Q
}.

Definition with_data (x : DataFrame) (s : AlertDetector) : AlertDetector :=
  mkAlertDetector (Some x) (lower_limit s) (upper_limit s)
    (slow_mavg_window s) (fast_mavg_window s) (mavg_delta s)
    (plateau_length s) (plateau_delta s).

Definition with_lower_limit (x : Q) (s : AlertDetector) : AlertDetector :=
  mkAlertDetector (data s) (Some x) (upper_limit s)
    (slow_mavg_window s) (fast_mavg_window s) (mavg_delta s)
    (plateau_length s) (plateau_delta s).

Definition with_upper_limit (x : bound) (s : AlertDetector) : AlertDetector :=
  mkAlertDetector (data s) (lower_limit s) (Some x)
    (slow_mavg_window s) (fast_mavg_window s) (mavg_delta s)
    (plateau_length s) (plateau_delta s).

Definition with_slow_mavg_window (x : Z) (s : AlertDetector) : AlertDetector :=
  mkAlertDetector (data s) (lower_limit s) (upper_limit s)
    (Some x) (fast_mavg_window s) (mavg_delta s)
    (plateau_length s) (plateau_delta s).

Definition with_fast_mavg_window (x : Z) (s : AlertDetector) : AlertDetector :=
  mkAlertDetector (data s) (lower_limit s) (upper_limit s)
    (slow_mavg_window s) (Some x) (mavg_delta s)
    (plateau_length s) (plateau_delta s).

Definition with_mavg_delta (x : Q) (s : AlertDetector) : AlertDetector :=
  mkAlertDetector (data s) (lower_limit s) (upper_limit s)
    (slow_mavg_window s) (fast_mavg_window s) (Some x)
    (plateau_length s) (plateau_delta s).

Definition with_plateau_length (x : Z) (s : AlertDetector) : AlertDetector :=
  mkAlertDetector (data s) (lower_limit s) (upper_limit s)
    (slow_mavg_window s) (fast_mavg_window s) (mavg_delta s)
    (Some x) (plateau_delta s).

Definition with_plateau_delta (x : Q) (s : AlertDetector) : AlertDetector :=
  mkAlertDetector (data s) (lower_limit s) (upper_limit s)
    (slow_mavg_window s) (fast_mavg_window s) (mavg_delta s)
    (plateau_length s) (Some x).

(** The object on entry to [__init__]: no instance attribute yet, and the
    class attribute [data = None]. *)
Definition blank : AlertDetector :=
  mkAlertDetector None None None None None None None None.

(** ** The method monad *)

(** [NotReadyError] is the error kind of the specification; the source
    never raises it.  [OverflowError] and [MemoryError] are what the
    interpreter raises for a list too long to build; lists have no size
    limit here, so no method of the model raises them. *)
Inductive exn : Type :=
| AttributeError
| TypeError
| ValueError
| IndexError
| KeyError
| OverflowError
| MemoryError
| NotReadyError.

Inductive outcome (A : Type) : Type :=
| Return (a : A) (s : AlertDetector)
| Raise (e : exn) (s : AlertDetector).
Arguments Return {A} a s.
Arguments Raise {A} e s.

Definition M (A : Type) : Type := AlertDetector -> outcome A.

Definition ret {A} (a : A) : M A := fun s => Return a s.

Definition bind {A B} (m : M A) (f : A -> M B) : M B :=
  fun s => match m s with
           | Return a s' => f a s'
           | Raise e s' => Raise e s'
           end.

Definition raise {A} (e : exn) : M A := fun s => Raise e s.

Declare Scope py_scope.
Delimit Scope py_scope with py.
Notation "x <- c1 ;; c2" := (bind c1 (fun x => c2))
  (at level 61, c1 at next level, right associativity) : py_scope.
Notation "c1 ;; c2" := (bind c1 (fun _ => c2))
  (at level 61, right associativity) : py_scope.
Open Scope py_scope.

(** [self.attr]: raises [AttributeError] while the attribute is unset. *)
Definition getattr {A} (attr : AlertDetector -> option A) : M A :=
  fun s => match attr s with
           | Some a => Return a s
           | None => Raise AttributeError s
           end.

(** [hasattr(self, 'attr')]. *)
Definition hasattr {A} (attr : AlertDetector -> option A) : M bool :=
  fun s => Return (match attr s with Some _ => true | None => false end) s.

(** [self.attr = x], through one of the [with_] updates. *)
Definition modify (f : AlertDetector -> AlertDetector) : M unit :=
  fun s => Return tt (f s).

(** ** Configuration: defaults and setters *)

Definition LOWER_LIMIT : Z := 100.
Definition UPPER_LIMIT : Z := 1300.
Definition SLOW_MAVG_WINDOW : Z := 20.
Definition FAST_MAVG_WINDOW : Z := 5.
Definition MAVG_DELTA : Z := 70.
Definition PLATEAU_LENGTH : Z := 2000.
Definition PLATEAU_DELTA : Z := 2.

Definition set_lower_limit (lower : pyval) : M bool :=
  match as_number lower with
  | None => ret false
  | Some l =>
      has <- hasattr upper_limit ;;
      (if has then ret tt else modify (with_upper_limit PosInf)) ;;
      up <- getattr upper_limit ;;
      if bound_leb up l then ret false
      else modify (with_lower_limit l) ;; ret true
  end.

Definition set_upper_limit (upper : pyval) : M bool :=
  match as_number upper with
  | None => ret false
  | Some u =>
      lo <- getattr lower_limit ;;
      if Qle_bool u lo then ret false
      else modify (with_upper_limit (Finite u)) ;; ret true
  end.

Definition set_slow_mavg_window (slow : pyval) : M bool :=
  match as_int slow with
  | None => ret false
  | Some w =>
      has <- hasattr fast_mavg_window ;;
      (if has then ret tt else modify (with_fast_mavg_window 5)) ;;
      fw <- getattr fast_mavg_window ;;
      if (w <=? fw)%Z then ret false
      else if (w <? 20)%Z then ret false
      else modify (with_slow_mavg_window w) ;; ret true
  end.

Definition set_fast_mavg_window (fast : pyval) : M bool :=
  match as_int fast with
  | None => ret false
  | Some w =>
      sw <- getattr slow_mavg_window ;;
      if (sw <=? w)%Z then ret false
      else if (w <? 5)%Z then ret false
      else modify (with_fast_mavg_window w) ;; ret true
  end.

(** The names bound in the frame of [set_mavg_delta]: what [locals()]
    holds there. *)
Definition set_mavg_delta_locals : list string :=
  ["self"; "mavg_delta"]%string.

Definition in_locals (name : string) (ls : list string) : bool :=
  existsb (String.eqb name) ls.

(** [self.upper_limit - self.upper_limit <= d]; [inf - inf] is NaN, and
    every comparison with NaN is false. *)
Definition upper_minus_upper_leb (up : bound) (d : Q) : bool :=
  match up with
  | Finite u => Qle_bool (u - u) d
  | PosInf => false
  end.

Definition set_mavg_delta (delta : pyval) : M bool :=
  match as_number delta with
  | None => ret false
  | Some d =>
      if in_locals "self.upper_limit" set_mavg_delta_locals
         && in_locals "self.lower_limit" set_mavg_delta_locals
      then
        up <- getattr upper_limit ;;
        if upper_minus_upper_leb up d then ret false
        else modify (with_mavg_delta d) ;; ret true
      else modify (with_mavg_delta d) ;; ret true
  end.

Definition set_plateau_length (len : pyval) : M bool :=
  match as_int len with
  | None => ret false
  | Some n =>
      if (n <? 10)%Z then ret false
      else modify (with_plateau_length n) ;; ret true
  end.

Definition set_plateau_delta (delta : pyval) : M bool :=
  match as_number delta with
  | None => ret false
  | Some d =>
      if Qltb d 0 then ret false
      else modify (with_plateau_delta d) ;; ret true
  end.

(** The constructor: every setter with its default argument, results
    discarded. *)
Definition __init__ : M unit :=
  set_lower_limit (PyInt LOWER_LIMIT) ;;
  set_upper_limit (PyInt UPPER_LIMIT) ;;
  set_slow_mavg_window (PyInt SLOW_MAVG_WINDOW) ;;
  set_fast_mavg_window (PyInt FAST_MAVG_WINDOW) ;;
  set_mavg_delta (PyInt MAVG_DELTA) ;;
  set_plateau_length (PyInt PLATEAU_LENGTH) ;;
  set_plateau_delta (PyInt PLATEAU_DELTA) ;;
  ret tt.

(** The detector [AlertDetector()] returns. *)
Definition default_detector : AlertDetector :=
  mkAlertDetector None (Some (inject_Z 100)) (Some (Finite (inject_Z 1300)))
    (Some 20%Z) (Some 5%Z) (Some (inject_Z 70)) (Some 2000%Z)
    (Some (inject_Z 2)).

(** What [set_data] may be handed. *)
Inductive data_arg : Type :=
| NotADataFrame
| FrameWithoutValues
| Frame (df : DataFrame).

Definition set_data (arg : data_arg) : M bool :=
  match arg with
  | NotADataFrame => ret false
  | FrameWithoutValues => ret false
  | Frame df =>
      if (length (values df) <=? 20)%nat then ret false
      else modify (with_data df) ;; ret true
  end.

(** One call of a configuration setter, and a sequence of them. *)
Inductive setter_call : Type :=
| Call_set_lower_limit (v : pyval)
| Call_set_upper_limit (v : pyval)
| Call_set_slow_mavg_window (v : pyval)
| Call_set_fast_mavg_window (v : pyval)
| Call_set_mavg_delta (v : pyval)
| Call_set_plateau_length (v : pyval)
| Call_set_plateau_delta (v : pyval).

Definition call (c : setter_call) : M bool :=
  match c with
  | Call_set_lower_limit v => set_lower_limit v
  | Call_set_upper_limit v => set_upper_limit v
  | Call_set_slow_mavg_window v => set_slow_mavg_window v
  | Call_set_fast_mavg_window v => set_fast_mavg_window v
  | Call_set_mavg_delta v => set_mavg_delta v
  | Call_set_plateau_length v => set_plateau_length v
  | Call_set_plateau_delta v => set_plateau_delta v
  end.

Fixpoint calls (cs : list setter_call) : M unit :=
  match cs with
  | [] => ret tt
  | c :: cs' => call c ;; calls cs'
  end.

(** ** The moving-average engine *)

Fixpoint Qsum (xs : list Q) : Q :=
  match xs with
  | [] => 0
  | x :: r => x + Qsum r
  end.

(** [np.ones(w)]. *)
Definition np_ones (w : nat) : list Q := repeat 1 w.

(** The sum of the products of the entries of [a] and [v], index by index. *)
Fixpoint dot (a v : list Q) : Q :=
  match a, v with
  | x :: a', y :: v' => x * y + dot a' v'
  | _, _ => 0
  end.

(** [np.convolve(a, v, 'valid')]: the operands are swapped when [v] is the
    longer one, an empty operand is a [ValueError] ([None]), and entry [k]
    is the sum of [a[k+j] * v[n-1-j]] over the [n] positions of [v]. *)
Definition np_convolve_valid (a v : list Q) : option (list Q) :=
  let (a', v') := if (length a <? length v)%nat then (v, a) else (a, v) in
  match v' with
  | [] => None
  | _ :: _ =>
      Some (map (fun k => dot (firstn (length v') (skipn k a')) (rev v'))
                (seq 0 (length a' - length v' + 1)))
  end.

(** [self.data['values']]: subscripting [None] is a [TypeError]. *)
Definition data_values : M (list Q) :=
  fun s => match data s with
           | Some df => Return (values df) s
           | None => Raise TypeError s
           end.

(** [self.data[name]] for an added column. *)
Definition column {A} (col : DataFrame -> option A) : M A :=
  fun s => match data s with
           | None => Raise TypeError s
           | Some df => match col df with
                        | Some c => Return c s
                        | None => Raise KeyError s
                        end
           end.

(** [self.data[name] = c]: the frame is updated in place; a column whose
    length is not the number of rows is a [ValueError]. *)
Definition assign {A} (upd : list A -> DataFrame -> DataFrame) (c : list A)
  : M unit :=
  fun s => match data s with
           | None => Raise TypeError s
           | Some df =>
               if (length c =? length (values df))%nat
               then Return tt (with_data (upd c df) s)
               else Raise ValueError s
           end.

(** [self.data.method(...)]: an attribute of [None] is an
    [AttributeError]. *)
Definition data_object : M DataFrame :=
  fun s => match data s with
           | Some df => Return df s
           | None => Raise AttributeError s
           end.

(** The pad, [w-1] copies of [list(self.data['values'])[-1]], is built
    first; then the valid convolution with [np.ones(w)], every entry
    divided by [w]; the result is the averages followed by the pad.  (The
    sums are exact and the pad may have any length here; see the
    conventions at the head of the file.) *)
Definition __moving_average__ (w : Z) : M (list Q) :=
  vs <- data_values ;;
  match vs with
  | [] => raise IndexError
  | _ :: _ =>
      let pad := repeat (last vs 0) (Z.to_nat (w - 1)) in
      vs' <- data_values ;;
      if (w <? 0)%Z then raise ValueError
      else
        match np_convolve_valid vs' (np_ones (Z.to_nat w)) with
        | None => raise ValueError
        | Some c => ret (map (fun x => x / inject_Z w) c ++ pad)
        end
  end.

Fixpoint map2 {A B C} (f : A -> B -> C) (xs : list A) (ys : list B)
  : list C :=
  match xs, ys with
  | x :: xs', y :: ys' => f x y :: map2 f xs' ys'
  | _, _ => []
  end.

(** Each of [slow_ma] and [fast_ma] is first set to the readings and then
    overwritten with its moving average; [delta_ma] is their difference,
    entry by entry. *)
Definition __mavg_calc__ : M unit :=
  vs <- data_values ;;
  assign with_slow_ma vs ;;
  sw <- getattr slow_mavg_window ;;
  c <- __moving_average__ sw ;;
  assign with_slow_ma c ;;
  vs <- data_values ;;
  assign with_fast_ma vs ;;
  fw <- getattr fast_mavg_window ;;
  c <- __moving_average__ fw ;;
  assign with_fast_ma c ;;
  sl <- column slow_ma ;;
  fa <- column fast_ma ;;
  assign with_delta_ma (map2 Qminus sl fa).

(** ** The rules *)

Fixpoint mapM {A B} (f : A -> M B) (xs : list A) : M (list B) :=
  match xs with
  | [] => ret []
  | x :: r => y <- f x ;; ys <- mapM f r ;; ret (y :: ys)
  end.

Fixpoint foldM {A B} (f : B -> A -> M B) (acc : B) (xs : list A) : M B :=
  match xs with
  | [] => ret acc
  | x :: r => acc' <- f acc x ;; foldM f acc' r
  end.

(** The row function of the rupture rule, on the row's ['values'] cell. *)
Definition __maxmin_calc__ (v : Q) : M Z :=
  lo <- getattr lower_limit ;;
  if Qltb v lo then ret 1%Z
  else
    up <- getattr upper_limit ;;
    if bound_gtb v up then ret 1%Z else ret 0%Z.

(** [self.data.apply(self.__maxmin_calc__, axis=1)]: the row function on
    every row in index order, then the new column. *)
Definition detect_maxmin_rupture : M bool :=
  df <- data_object ;;
  flags <- mapM __maxmin_calc__ (values df) ;;
  assign with_maxmin_alert flags ;;
  ret true.

(** The row function of the slope rule, on the row's ['delta_ma'] cell. *)
Definition __mavg_delta_calc__ (x : Q) : M Z :=
  md <- getattr mavg_delta ;;
  if Qltb x (md * -(1)) then ret 1%Z
  else
    md' <- getattr mavg_delta ;;
    if Qltb md' x then ret 1%Z else ret 0%Z.

(** [self.data.apply] is the [data_object] step; the rows then hand their
    ['delta_ma'] cells to the row function. *)
Definition detect_fast_slope : M bool :=
  __mavg_calc__ ;;
  data_object ;;
  de <- column delta_ma ;;
  flags <- mapM __mavg_delta_calc__ de ;;
  assign with_delta_ma_alert flags ;;
  ret true.

(** One iteration of the plateau loop on the row's ['delta_ma'] cell; the
    accumulator is the counter [pcnt] and the list [alert]. *)
Definition plateau_row (acc : Z * list Z) (x : Q) : M (Z * list Z) :=
  pd <- getattr plateau_delta ;;
  let pcnt := if Qltb (Qabs x) pd then (fst acc + 1)%Z else 0%Z in
  pl <- getattr plateau_length ;;
  ret (pcnt, snd acc ++ [if (pl <? pcnt)%Z then 1%Z else 0%Z]).

(** The two [data_object] steps are [self.data.reset_index()], whose
    result is dropped, and [self.data.iterrows()]. *)
Definition detect_plateau : M bool :=
  __mavg_calc__ ;;
  data_object ;;
  data_object ;;
  de <- column delta_ma ;;
  r <- foldM plateau_row (0%Z, []) de ;;
  assign with_plateau_alert (snd r) ;;
  ret true.

(** [column == 1] on an integer column and on a boolean one. *)
Definition eq_one (z : Z) : bool := (z =? 1)%Z.
Definition bool_eq_one (b : bool) : bool := (Z.b2z b =? 1)%Z.

Definition detect_all : M bool :=
  detect_maxmin_rupture ;;
  detect_fast_slope ;;
  detect_plateau ;;
  m <- column maxmin_alert ;;
  s <- column delta_ma_alert ;;
  assign with_alert (map2 orb (map eq_one m) (map eq_one s)) ;;
  a <- column alert ;;
  p <- column plateau_alert ;;
  assign with_alert (map2 orb (map bool_eq_one a) (map eq_one p)) ;;
  ret true.

(** ** Auto-tuning *)

Definition np_mean (vs : list Q) : Q :=
  Qsum vs / inject_Z (Z.of_nat (length vs)).

Section AutoTune.

(** The floating-point square root that [np.std] ends with. *)
Variable np_sqrt : Q -> Q.

Definition np_std (vs : list Q) : Q :=
  let m := np_mean vs in
  np_sqrt (np_mean (map (fun x => (x - m) * (x - m)) vs)).

Definition auto_tune : M unit :=
  vs <- data_values ;;
  let mean := np_mean vs in
  vs' <- data_values ;;
  let std := np_std vs' in
  let zsc_inf := mean - (5 # 2) * std in
  let zsc_sup := mean + (5 # 2) * std in
  set_lower_limit (PyFloat zsc_inf) ;;
  set_upper_limit (PyFloat zsc_sup) ;;
  set_mavg_delta (PyFloat ((1 # 10) * (zsc_sup - zsc_inf))) ;;
  ret tt.

End AutoTune.

(** A square root on rationals, exact on squares of numbers with at most
    six decimals: a stand-in for [np.sqrt] on such inputs. *)
Definition sqrt_6dec (q : Q) : Q :=
  Qmake (Z.sqrt (Qnum q * 10 ^ 12 / Zpos (Qden q))) (10 ^ 6).

(** ** The limit setters and the plateau rule on binary64 floats *)

(** The part of the class whose outcome can turn on rounding or on NaN,
    over the machine's floats: the two limit setters, on the two
    attributes they read and write, and the columns that [__mavg_calc__]
    and [detect_plateau] compute from the readings.  The comparisons are
    the IEEE ones, false as soon as one side is NaN.  [None] stands for
    any exception. *)
Module Binary64.

(** [lower_limit] and [upper_limit] of a constructed detector. *)
Record Limits : Type := mkLimits {
  lower_limit : float;
  upper_limit : float
}.

Definition default_limits : Limits := mkLimits 100%float 1300%float.

(** [set_lower_limit(lower)] with a float: [isinstance] passes,
    [upper_limit] exists, and [self.upper_limit <= lower] rejects. *)
Definition set_lower_limit (lower : float) (c : Limits) : bool * Limits :=
  if (upper_limit c <=? lower)%float then (false, c)
  else (true, mkLimits lower (upper_limit c)).

(** [set_upper_limit(upper)] with a float: [self.lower_limit >= upper]
    rejects. *)
Definition set_upper_limit (upper : float) (c : Limits) : bool * Limits :=
  if (upper <=? lower_limit c)%float then (false, c)
  else (true, mkLimits (lower_limit c) upper).

(** [lower_limit < upper_limit], as Python evaluates it. *)
Definition limits_ordered (c : Limits) : bool :=
  (lower_limit c <? upper_limit c)%float.

(** [np.ones(w)]. *)
Definition np_ones (w : nat) : list float := repeat 1%float w.

(** One entry of the convolution: the products are added to a running
    sum in index order, each addition rounded. *)
Definition dot (a v : list float) : float :=
  fold_left (fun acc xy => (acc + fst xy * snd xy)%float) (combine a v)
            0%float.

(** [np.convolve(a, v, 'valid')], as in the main development. *)
Definition np_convolve_valid (a v : list float) : option (list float) :=
  let (a', v') := if (length a <? length v)%nat then (v, a) else (a, v) in
  match v' with
  | [] => None
  | _ :: _ =>
      Some (map (fun k => dot (firstn (length v') (skipn k a')) (rev v'))
                (seq 0 (length a' - length v' + 1)))
  end.

(** The window size as the float the averages are divided by. *)
Definition float_of_nat (n : nat) : float :=
  PrimFloat.of_uint63 (Uint63.of_Z (Z.of_nat n)).

(** [__moving_average__(w)] on the readings [vs]. *)
Definition __moving_average__ (w : nat) (vs : list float)
  : option (list float) :=
  match vs with
  | [] => None
  | _ :: _ =>
      let pad := repeat (last vs 0%float) (w - 1) in
      match np_convolve_valid vs (np_ones w) with
      | None => None
      | Some c => Some (map (fun x => (x / float_of_nat w)%float) c ++ pad)
      end
  end.

(** The column [delta_ma] that [__mavg_calc__] leaves; each moving average
    must have the series' length to be stored. *)
Definition delta_ma (slow fast : nat) (vs : list float)
  : option (list float) :=
  match __moving_average__ slow vs with
  | None => None
  | Some sl =>
      if negb (length sl =? length vs)%nat then None
      else
        match __moving_average__ fast vs with
        | None => None
        | Some fa =>
            if negb (length fa =? length vs)%nat then None
            else Some (map2 PrimFloat.sub sl fa)
        end
  end.

(** One iteration of the plateau loop. *)
Definition plateau_row (plateau_delta : float) (plateau_length : Z)
  (acc : Z * list Z) (x : float) : Z * list Z :=
  let pcnt :=
    if (abs x <? plateau_delta)%float then (fst acc + 1)%Z else 0%Z in
  (pcnt, snd acc ++ [if (plateau_length <? pcnt)%Z then 1%Z else 0%Z]).

(** The column [plateau_alert] that [detect_plateau] leaves. *)
Definition detect_plateau (slow fast : nat) (plateau_delta : float)
  (plateau_length : Z) (vs : list float) : option (list Z) :=
  match delta_ma slow fast vs with
  | None => None
  | Some de =>
      Some (snd (fold_left (plateau_row plateau_delta plateau_length) de
                           (0%Z, [])))
  end.

(** Twenty-five readings, all the float that Python writes [0.1]. *)
Definition readings_tenth : list float := repeat 0.1%float 25.

End Binary64.

(** * Vocabulary of the properties *)

(** The four relational constraints on limits and windows. *)
Definition relational_invariants (s : AlertDetector) : Prop :=
  exists lo up sw fw,
    lower_limit s = Some lo /\ upper_limit s = Some (Finite up) /\
    slow_mavg_window s = Some sw /\ fast_mavg_window s = Some fw /\
    lo < up /\ (fw < sw)%Z /\ (20 <= sw)%Z /\ (5 <= fw)%Z.

(** The state a setter call would produce if it committed its argument
    without any relational check ([None]: the argument has the wrong
    type). *)
Definition assigned (c : setter_call) (s : AlertDetector)
  : option AlertDetector :=
  match c with
  | Call_set_lower_limit v =>
      option_map (fun x => with_lower_limit x s) (as_number v)
  | Call_set_upper_limit v =>
      option_map (fun x => with_upper_limit (Finite x) s) (as_number v)
  | Call_set_slow_mavg_window v =>
      option_map (fun x => with_slow_mavg_window x s) (as_int v)
  | Call_set_fast_mavg_window v =>
      option_map (fun x => with_fast_mavg_window x s) (as_int v)
  | Call_set_mavg_delta v =>
      option_map (fun x => with_mavg_delta x s) (as_number v)
  | Call_set_plateau_length v =>
      option_map (fun x => with_plateau_length x s) (as_int v)
  | Call_set_plateau_delta v =>
      option_map (fun x => with_plateau_delta x s) (as_number v)
  end.

(** The answer the specification expects from a rejected setter call: the
    flag [False] and the prior state. *)
Definition rejected_unchanged (o : outcome bool) (s : AlertDetector) : Prop :=
  o = Return false s.

(** The explicit failure signal of the specification: the exception
    [NotReadyError], or the answer [False]. *)
Definition signals_not_ready (o : outcome bool) : Prop :=
  exists s, o = Raise NotReadyError s \/ o = Return false s.

(** The sliding sums of a window of [n] ones over [vs]. *)
Definition window_sums (n : nat) (vs : list Q) : list Q :=
  map (fun k => dot (firstn n (skipn k vs)) (rev (np_ones n)))
      (seq 0 (length vs - n + 1)).

(** The column [__moving_average__(w)] builds when the window fits. *)
Definition mavg_col (w : Z) (vs : list Q) : list Q :=
  map (fun x => x / inject_Z w) (window_sums (Z.to_nat w) vs)
  ++ repeat (last vs 0) (Z.to_nat (w - 1)).

(** The frame [__mavg_calc__] leaves when both windows fit. *)
Definition mavg_frame (sw fw : Z) (df : DataFrame) : DataFrame :=
  with_delta_ma
    (map2 Qminus (mavg_col sw (values df)) (mavg_col fw (values df)))
    (with_fast_ma (mavg_col fw (values df))
       (with_slow_ma (mavg_col sw (values df)) df)).

(** The readings 1, 2, ..., 21. *)
Definition readings_1_to_21 : list Q :=
  map (fun n => inject_Z (Z.of_nat n)) (seq 1 21).

(** The rupture flag of one reading. *)
Definition maxmin_flag (lo : Q) (up : bound) (v : Q) : Z :=
  if Qltb v lo || bound_gtb v up then 1%Z else 0%Z.

(** [v > b] for a possibly infinite [b]. *)
Definition above (v : Q) (b : bound) : Prop :=
  match b with Finite u => u < v | PosInf => False end.

(** [lo <= v <= up]. *)
Definition within (lo : Q) (up : bound) (v : Q) : Prop :=
  lo <= v /\ match up with Finite u => v <= u | PosInf => True end.

(** The slope flag of one [delta_ma] entry. *)
Definition slope_flag (md : Q) (x : Q) : Z :=
  if Qltb x (md * -(1)) || Qltb md x then 1%Z else 0%Z.

(** The [delta_ma] column when both windows fit. *)
Definition delta_col (sw fw : Z) (vs : list Q) : list Q :=
  map2 Qminus (mavg_col sw vs) (mavg_col fw vs).

(** The counter after one more [delta_ma] entry. *)
Definition plateau_next (pd : Q) (pcnt : Z) (x : Q) : Z :=
  if Qltb (Qabs x) pd then (pcnt + 1)%Z else 0%Z.

(** The flags the loop appends, from counter [pcnt] on. *)
Fixpoint plateau_scan (pd : Q) (pl : Z) (pcnt : Z) (xs : list Q) : list Z :=
  match xs with
  | [] => []
  | x :: r =>
      let c := plateau_next pd pcnt x in
      (if (pl <? c)%Z then 1%Z else 0%Z) :: plateau_scan pd pl c r
  end.

(** The ranges the setters enforce on the remaining parameters. *)
Definition parameter_ranges (s : AlertDetector) : Prop :=
  exists md pl pd,
    mavg_delta s = Some md /\ plateau_length s = Some pl /\
    plateau_delta s = Some pd /\ (10 <= pl)%Z /\ 0 <= pd.

(** Following the specification's words: the counter [run] at sample [i]
    is the counter at sample [i-1] plus 1 if [|delta_ma[i]| <
    plateau_delta] and 0 otherwise, the counter before the first sample
    being 0. *)
Fixpoint spec_run (pd : Q) (delta : list Q) (i : nat) : Z :=
  match i with
  | O => if Qltb (Qabs (nth 0 delta 0)) pd then (0 + 1)%Z else 0%Z
  | S j =>
      if Qltb (Qabs (nth (S j) delta 0)) pd
      then (spec_run pd delta j + 1)%Z else 0%Z
  end.

(** The column [col] of the frame held by [s], if both exist. *)
Definition column_of {A} (col : DataFrame -> option A) (s : AlertDetector)
  : option A :=
  match data s with
  | Some df => col df
  | None => None
  end.

(** The combined column [detect_all] leaves. *)
Definition alert_col (m sl p : list Z) : list bool :=
  map2 orb (map bool_eq_one (map2 orb (map eq_one m) (map eq_one sl)))
           (map eq_one p).

(** The series of 21 readings, all 5000. *)
Definition readings_5000 : list Q := repeat 5000 21.


(** Twenty-five readings: one below the default limits, one above them,
    the others within. *)
Definition readings_50_500_2000 : list Q :=
  [50; 500; 2000] ++ repeat 500 22.

(** ** Vocabulary of the further properties *)

(** [s'] has the settings of [s] and the same readings, if any. *)
Definition same_settings (s s' : AlertDetector) : Prop :=
  lower_limit s' = lower_limit s /\
  upper_limit s' = upper_limit s /\
  slow_mavg_window s' = slow_mavg_window s /\
  fast_mavg_window s' = fast_mavg_window s /\
  mavg_delta s' = mavg_delta s /\
  plateau_length s' = plateau_length s /\
  plateau_delta s' = plateau_delta s /\
  option_map values (data s') = option_map values (data s).

(** The state a call leaves, whether it returned or raised. *)
Definition state_after {A} (o : outcome A) : AlertDetector :=
  match o with
  | Return _ s => s
  | Raise _ s => s
  end.

(** A method keeps the settings and the readings on every path. *)
Definition keeps_settings {A} (m : M A) : Prop :=
  forall s, same_settings s (state_after (m s)).

(** One call of a public method. *)
Inductive api_call : Type :=
| Api_setter (c : setter_call)
| Api_set_data (arg : data_arg)
| Api_detect_maxmin_rupture
| Api_detect_fast_slope
| Api_detect_plateau
| Api_detect_all
| Api_auto_tune.

(** The state after one public call and after a sequence of them, the
    caller going on after an exception. *)
Definition api_step (np_sqrt : Q -> Q) (s : AlertDetector) (c : api_call)
  : AlertDetector :=
  match c with
  | Api_setter c => state_after (call c s)
  | Api_set_data arg => state_after (set_data arg s)
  | Api_detect_maxmin_rupture => state_after (detect_maxmin_rupture s)
  | Api_detect_fast_slope => state_after (detect_fast_slope s)
  | Api_detect_plateau => state_after (detect_plateau s)
  | Api_detect_all => state_after (detect_all s)
  | Api_auto_tune => state_after (auto_tune np_sqrt s)
  end.

Definition api_steps (np_sqrt : Q -> Q) (cs : list api_call)
  (s : AlertDetector) : AlertDetector :=
  fold_left (api_step np_sqrt) cs s.

(** What every state of a detector in use satisfies. *)
Definition api_invariant (s : AlertDetector) : Prop :=
  relational_invariants s /\ parameter_ranges s /\
  forall df, data s = Some df -> (20 < length (values df))%nat.

(** The frame [detect_all] leaves when both windows fit: every derived
    column recomputed from the readings of [df]. *)
Definition detect_all_frame (lo : Q) (up : bound) (sw fw : Z) (md pd : Q)
  (pl : Z) (df : DataFrame) : DataFrame :=
  let m := map (maxmin_flag lo up) (values df) in
  let sl := map (slope_flag md) (delta_col sw fw (values df)) in
  let p := plateau_scan pd pl 0 (delta_col sw fw (values df)) in
  with_alert (alert_col m sl p)
    (with_alert (map2 orb (map eq_one m) (map eq_one sl))
       (with_plateau_alert p
          (mavg_frame sw fw
             (with_delta_ma_alert sl
                (mavg_frame sw fw (with_maxmin_alert m df)))))).

(** The two orders in which a caller can move both limits, and both
    windows, each giving the answers of its two setter calls. *)
Definition limits_lower_first (l u : Q) : M (bool * bool) :=
  b1 <- set_lower_limit (PyFloat l) ;;
  b2 <- set_upper_limit (PyFloat u) ;;
  ret (b1, b2).

Definition limits_upper_first (l u : Q) : M (bool * bool) :=
  b1 <- set_upper_limit (PyFloat u) ;;
  b2 <- set_lower_limit (PyFloat l) ;;
  ret (b1, b2).

Definition windows_fast_first (w f : Z) : M (bool * bool) :=
  b1 <- set_fast_mavg_window (PyInt f) ;;
  b2 <- set_slow_mavg_window (PyInt w) ;;
  ret (b1, b2).

Definition windows_slow_first (w f : Z) : M (bool * bool) :=
  b1 <- set_slow_mavg_window (PyInt w) ;;
  b2 <- set_fast_mavg_window (PyInt f) ;;
  ret (b1, b2).

(** Loading a frame and, if it was accepted, running every rule. *)
Definition load_and_detect (df : DataFrame) : M bool :=
  ok <- set_data (Frame df) ;;
  if ok then detect_all else ret false.

(** * Properties *)

Lemma init_default : __init__ blank = Return tt default_detector.
Proof. reflexivity. Qed.

(** ** Comparisons *)

Lemma Qltb_lt (x y : Q) : Qltb x y = true <-> x < y.
Proof.
  unfold Qltb. rewrite negb_true_iff, <- not_true_iff_false, Qle_bool_iff.
  split; [apply Qnot_le_lt | apply Qlt_not_le].
Qed.

Lemma Qltb_ge (x y : Q) : Qltb x y = false <-> y <= x.
Proof.
  unfold Qltb. rewrite negb_false_iff. apply Qle_bool_iff.
Qed.

Lemma Qle_bool_gt (x y : Q) : Qle_bool x y = false <-> y < x.
Proof.
  rewrite <- not_true_iff_false, Qle_bool_iff.
  split; [apply Qnot_le_lt | apply Qlt_not_le].
Qed.

(** ** The configuration store *)

Lemma default_relational_invariants : relational_invariants default_detector.
Proof.
  exists (inject_Z 100), (inject_Z 1300), 20%Z, 5%Z.
  repeat split; try reflexivity; try lia.
Qed.

Ltac run_setter :=
  cbv [call set_lower_limit set_upper_limit set_slow_mavg_window
       set_fast_mavg_window set_mavg_delta set_plateau_length
       set_plateau_delta bind ret modify getattr hasattr
       set_mavg_delta_locals in_locals assigned option_map].

(** A setter call on a state that meets the constraints returns, keeps
    the constraints, changes nothing when it answers [False], and answers
    [False] whenever committing its argument would break a constraint. *)
Lemma call_relational_invariants (c : setter_call) (s : AlertDetector) :
  relational_invariants s ->
  exists b s',
    call c s = Return b s' /\ relational_invariants s' /\
    (b = false -> s' = s) /\
    (forall s1, assigned c s = Some s1 -> ~ relational_invariants s1 ->
                b = false).
Proof.
  intros (lo & up & sw & fw & Hlo & Hup & Hsw & Hfw & Hlim & Hwin & Hs & Hf).
  assert (Hinv : relational_invariants s)
    by (exists lo, up, sw, fw; repeat split; assumption).
  destruct c as [v|v|v|v|v|v|v].
  - (* set_lower_limit *)
    run_setter. destruct (as_number v) as [l|] eqn:Hv; simpl.
    2:{ exists false, s. repeat split; auto; discriminate. }
    rewrite Hup. simpl. rewrite Hup. simpl.
    destruct (Qle_bool up l) eqn:Hcmp.
    + exists false, s. repeat split; auto.
    + exists true, (with_lower_limit l s). apply Qle_bool_gt in Hcmp.
      repeat split; try discriminate.
      * exists l, up, sw, fw. repeat split; assumption.
      * intros s1 [= <-] Hbad. exfalso. apply Hbad.
        exists l, up, sw, fw. repeat split; assumption.
  - (* set_upper_limit *)
    run_setter. destruct (as_number v) as [u|] eqn:Hv; simpl.
    2:{ exists false, s. repeat split; auto; discriminate. }
    rewrite Hlo.
    destruct (Qle_bool u lo) eqn:Hcmp.
    + exists false, s. repeat split; auto.
    + exists true, (with_upper_limit (Finite u) s). apply Qle_bool_gt in Hcmp.
      repeat split; try discriminate.
      * exists lo, u, sw, fw. repeat split; assumption.
      * intros s1 [= <-] Hbad. exfalso. apply Hbad.
        exists lo, u, sw, fw. repeat split; assumption.
  - (* set_slow_mavg_window *)
    run_setter. destruct (as_int v) as [w|] eqn:Hv; simpl.
    2:{ exists false, s. repeat split; auto; discriminate. }
    rewrite Hfw. simpl. rewrite Hfw.
    destruct (Z.leb_spec w fw).
    { exists false, s. repeat split; auto. }
    destruct (Z.ltb_spec w 20).
    { exists false, s. repeat split; auto. }
    exists true, (with_slow_mavg_window w s).
    repeat split; try discriminate.
    + exists lo, up, w, fw. repeat split; assumption.
    + intros s1 [= <-] Hbad. exfalso. apply Hbad.
      exists lo, up, w, fw. repeat split; assumption.
  - (* set_fast_mavg_window *)
    run_setter. destruct (as_int v) as [w|] eqn:Hv; simpl.
    2:{ exists false, s. repeat split; auto; discriminate. }
    rewrite Hsw.
    destruct (Z.leb_spec sw w).
    { exists false, s. repeat split; auto. }
    destruct (Z.ltb_spec w 5).
    { exists false, s. repeat split; auto. }
    exists true, (with_fast_mavg_window w s).
    repeat split; try discriminate.
    + exists lo, up, sw, w. repeat split; assumption.
    + intros s1 [= <-] Hbad. exfalso. apply Hbad.
      exists lo, up, sw, w. repeat split; assumption.
  - (* set_mavg_delta *)
    run_setter. destruct (as_number v) as [d|] eqn:Hv; simpl.
    2:{ exists false, s. repeat split; auto; discriminate. }
    exists true, (with_mavg_delta d s).
    repeat split; try discriminate.
    + exists lo, up, sw, fw. repeat split; assumption.
    + intros s1 [= <-] Hbad. exfalso. apply Hbad.
      exists lo, up, sw, fw. repeat split; assumption.
  - (* set_plateau_length *)
    run_setter. destruct (as_int v) as [n|] eqn:Hv; simpl.
    2:{ exists false, s. repeat split; auto; discriminate. }
    destruct (Z.ltb_spec n 10).
    { exists false, s. repeat split; auto. }
    exists true, (with_plateau_length n s).
    repeat split; try discriminate.
    + exists lo, up, sw, fw. repeat split; assumption.
    + intros s1 [= <-] Hbad. exfalso. apply Hbad.
      exists lo, up, sw, fw. repeat split; assumption.
  - (* set_plateau_delta *)
    run_setter. destruct (as_number v) as [d|] eqn:Hv; simpl.
    2:{ exists false, s. repeat split; auto; discriminate. }
    destruct (Qltb d 0).
    { exists false, s. repeat split; auto. }
    exists true, (with_plateau_delta d s).
    repeat split; try discriminate.
    + exists lo, up, sw, fw. repeat split; assumption.
    + intros s1 [= <-] Hbad. exfalso. apply Hbad.
      exists lo, up, sw, fw. repeat split; assumption.
Qed.

Lemma calls_relational_invariants (cs : list setter_call) :
  forall s, relational_invariants s ->
  exists s', calls cs s = Return tt s' /\ relational_invariants s'.
Proof.
  induction cs as [|c cs IH]; intros s Hs.
  - exists s. split; [reflexivity | assumption].
  - destruct (call_relational_invariants c s Hs) as (b & s1 & Hc & H1 & _).
    destruct (IH s1 H1) as (s' & Hcs & H').
    exists s'. split; [|assumption].
    simpl. unfold bind. rewrite Hc. exact Hcs.
Qed.

(** X16.  For arguments that are ints or finite floats (the float NaN is
    taken up below): the constructor yields the default configuration;
    from it, every sequence of setter calls returns and ends in a state
    [s] in which [lower_limit < upper_limit], [fast_window < slow_window],
    [slow_window >= 20] and [fast_window >= 5] hold.  In such a state any
    further setter call [c] returns, keeps the four constraints, leaves
    the state as it was when it answers [False], and answers [False]
    (state unchanged) whenever committing its argument would break one of
    the constraints; in particular [set_upper_limit] with a value not
    above the current [lower_limit] answers [False] and changes nothing. *)
Theorem setters_keep_relational_invariants :
  __init__ blank = Return tt default_detector /\
  forall (cs : list setter_call) (c : setter_call),
  exists s,
    calls cs default_detector = Return tt s /\
    relational_invariants s /\
    (exists b s',
        call c s = Return b s' /\ relational_invariants s' /\
        (b = false -> s' = s) /\
        (forall s1, assigned c s = Some s1 -> ~ relational_invariants s1 ->
                    b = false /\ s' = s)) /\
    (forall v u lo,
        as_number v = Some u -> lower_limit s = Some lo -> u <= lo ->
        set_upper_limit v s = Return false s).
Proof.
  split; [exact init_default|].
  intros cs c.
  destruct (calls_relational_invariants cs default_detector
              default_relational_invariants) as (s & Hrun & Hs).
  exists s. split; [exact Hrun|]. split; [exact Hs|]. split.
  - destruct (call_relational_invariants c s Hs) as (b & s' & Hc & H' & Hrej & Hbad).
    exists b, s'. split; [exact Hc|]. split; [exact H'|].
    split; [exact Hrej|].
    intros s1 Ha Hn. pose proof (Hbad s1 Ha Hn) as Hb. auto.
  - intros v u lo Hv Hlo Hle.
    unfold set_upper_limit. rewrite Hv.
    unfold bind, getattr. rewrite Hlo.
    apply Qle_bool_iff in Hle. rewrite Hle. reflexivity.
Qed.

Lemma setters_keep_relational_invariants_witness :
  set_upper_limit (PyInt 150) (with_lower_limit (inject_Z 200) default_detector)
  = Return false (with_lower_limit (inject_Z 200) default_detector).
Proof.
  destruct setters_keep_relational_invariants as [_ H].
  destruct (H [Call_set_lower_limit (PyInt 200)]
              (Call_set_upper_limit (PyInt 150)))
    as (s & Hrun & _ & _ & Hup).
  vm_compute in Hrun. injection Hrun as <-.
  apply (Hup (PyInt 150) (inject_Z 150) (inject_Z 200)).
  - reflexivity.
  - reflexivity.
  - unfold Qle; simpl; lia.
Defined.

(** C4.  The relational guard of the limit setters misses the float NaN.
    On a freshly constructed detector [set_lower_limit(float('nan'))]
    passes the type check, the guard [self.upper_limit <= lower_limit]
    evaluates to false, and the call answers [True] and stores NaN; from
    then on [lower_limit < upper_limit] is false.  The next
    [set_upper_limit(50)], a value below the default lower limit 100, is
    accepted as well, and so is [set_upper_limit(float('nan'))] on the
    fresh detector. *)
Theorem set_lower_limit_accepts_nan :
  Binary64.set_lower_limit nan Binary64.default_limits
    = (true, Binary64.mkLimits nan 1300%float) /\
  Binary64.limits_ordered (Binary64.mkLimits nan 1300%float) = false /\
  Binary64.set_upper_limit 50%float (Binary64.mkLimits nan 1300%float)
    = (true, Binary64.mkLimits nan 50%float) /\
  Binary64.limits_ordered (Binary64.mkLimits nan 50%float) = false /\
  Binary64.set_upper_limit nan Binary64.default_limits
    = (true, Binary64.mkLimits 100%float nan) /\
  Binary64.limits_ordered (Binary64.mkLimits 100%float nan) = false /\
  Binary64.limits_ordered Binary64.default_limits = true.
Proof. vm_compute. repeat split. Qed.

(** C3, as stated, fails: from the default configuration
    [set_mavg_delta(-1)] is accepted and [mavg_delta] becomes [-1]. *)
Lemma set_mavg_delta_negative_counterexample :
  set_mavg_delta (PyInt (-1)) default_detector
    = Return true (with_mavg_delta (inject_Z (-1)) default_detector) /\
  ~ rejected_unchanged (set_mavg_delta (PyInt (-1)) default_detector)
      default_detector.
Proof.
  split; [reflexivity|].
  unfold rejected_unchanged. vm_compute. discriminate.
Qed.

(** C3, amended.  For every detector state and every negative number [d],
    [set_mavg_delta(d)] answers [True] and [mavg_delta] becomes [d]: the
    setter has no sign check.  (Nothing is stated here about arguments
    that are not smaller than [upper_limit - lower_limit].) *)
Theorem set_mavg_delta_accepts_negative :
  forall (s : AlertDetector) (v : pyval) (d : Q),
    as_number v = Some d -> d < 0 ->
    set_mavg_delta v s = Return true (with_mavg_delta d s).
Proof.
  intros s v d Hv _. unfold set_mavg_delta. rewrite Hv. reflexivity.
Qed.

Lemma set_mavg_delta_accepts_negative_witness :
  set_mavg_delta (PyFloat (-5 # 2)) default_detector
    = Return true (with_mavg_delta (-5 # 2) default_detector).
Proof.
  apply set_mavg_delta_accepts_negative.
  - reflexivity.
  - reflexivity.
Defined.

(** ** Detection without data *)

(** C2, as stated, fails: on a freshly constructed detector
    [detect_maxmin_rupture] aborts with [AttributeError]. *)
Lemma detect_without_data_counterexample :
  detect_maxmin_rupture default_detector
    = Raise AttributeError default_detector /\
  ~ signals_not_ready (detect_maxmin_rupture default_detector).
Proof.
  split; [reflexivity|].
  intros [s [H|H]]; vm_compute in H; discriminate.
Qed.

(** C2, amended.  While no series is loaded ([data] is [None]) every
    detection operation aborts with an unhandled exception and leaves the
    detector as it was: [AttributeError] from [detect_maxmin_rupture] and
    [detect_all], [TypeError] from [detect_fast_slope] and
    [detect_plateau]. *)
Theorem detect_without_data_raises :
  forall s : AlertDetector,
    data s = None ->
    detect_maxmin_rupture s = Raise AttributeError s /\
    detect_fast_slope s = Raise TypeError s /\
    detect_plateau s = Raise TypeError s /\
    detect_all s = Raise AttributeError s.
Proof.
  intros s Hd.
  assert (Hr : detect_maxmin_rupture s = Raise AttributeError s).
  { unfold detect_maxmin_rupture, bind, data_object. rewrite Hd. reflexivity. }
  assert (Hm : __mavg_calc__ s = Raise TypeError s).
  { unfold __mavg_calc__, bind, data_values. rewrite Hd. reflexivity. }
  repeat split.
  - exact Hr.
  - unfold detect_fast_slope, bind. rewrite Hm. reflexivity.
  - unfold detect_plateau, bind. rewrite Hm. reflexivity.
  - unfold detect_all, bind. rewrite Hr. reflexivity.
Qed.

Lemma detect_without_data_raises_witness :
  detect_maxmin_rupture default_detector = Raise AttributeError default_detector /\
  detect_fast_slope default_detector = Raise TypeError default_detector /\
  detect_plateau default_detector = Raise TypeError default_detector /\
  detect_all default_detector = Raise AttributeError default_detector.
Proof.
  apply detect_without_data_raises. reflexivity.
Defined.

(** ** The moving-average engine *)

Lemma bind_Return {A B} (m : M A) (f : A -> M B) s a s1 :
  m s = Return a s1 -> bind m f s = f a s1.
Proof. intros H. unfold bind. rewrite H. reflexivity. Qed.

Lemma bind_Raise {A B} (m : M A) (f : A -> M B) s e s1 :
  m s = Raise e s1 -> bind m f s = Raise e s1.
Proof. intros H. unfold bind. rewrite H. reflexivity. Qed.

Lemma data_values_ok s df :
  data s = Some df -> data_values s = Return (values df) s.
Proof. intros H. unfold data_values. rewrite H. reflexivity. Qed.

Lemma data_object_ok s df :
  data s = Some df -> data_object s = Return df s.
Proof. intros H. unfold data_object. rewrite H. reflexivity. Qed.

Lemma getattr_ok {A} (attr : AlertDetector -> option A) s a :
  attr s = Some a -> getattr attr s = Return a s.
Proof. intros H. unfold getattr. rewrite H. reflexivity. Qed.

Lemma column_ok {A} (col : DataFrame -> option A) s df c :
  data s = Some df -> col df = Some c -> column col s = Return c s.
Proof. intros H1 H2. unfold column. rewrite H1, H2. reflexivity. Qed.

Lemma assign_ok {A} (upd : list A -> DataFrame -> DataFrame) c s df :
  data s = Some df -> length c = length (values df) ->
  assign upd c s = Return tt (with_data (upd c df) s).
Proof.
  intros H1 H2. unfold assign. rewrite H1, H2, Nat.eqb_refl. reflexivity.
Qed.

Lemma assign_mismatch {A} (upd : list A -> DataFrame -> DataFrame) c s df :
  data s = Some df -> length c <> length (values df) ->
  assign upd c s = Raise ValueError s.
Proof.
  intros H1 H2. unfold assign. rewrite H1.
  apply Nat.eqb_neq in H2. rewrite H2. reflexivity.
Qed.

Lemma dot_ones (xs : list Q) : dot xs (repeat 1 (length xs)) == Qsum xs.
Proof.
  induction xs as [|x xs IH]; simpl; [reflexivity|].
  rewrite IH. ring.
Qed.

Lemma dot_window_ones (xs : list Q) (n : nat) :
  length xs = n -> dot xs (rev (np_ones n)) == Qsum xs.
Proof.
  intros <-. unfold np_ones. rewrite rev_repeat. apply dot_ones.
Qed.

Lemma np_convolve_valid_ones (vs : list Q) (n : nat) :
  vs <> [] -> (1 <= n)%nat ->
  exists c,
    np_convolve_valid vs (np_ones n) = Some c /\
    length c = (if (length vs <? n)%nat then n - length vs + 1
                else length vs - n + 1)%nat /\
    ((n <= length vs)%nat -> c = window_sums n vs).
Proof.
  intros Hvs Hn. unfold np_convolve_valid, np_ones. rewrite repeat_length.
  destruct (Nat.ltb_spec (length vs) n) as [Hlt|Hge].
  - destruct vs as [|x vs']; [congruence|].
    eexists. split; [reflexivity|]. split.
    + rewrite length_map, length_seq, repeat_length. reflexivity.
    + intros Hle. lia.
  - destruct n as [|n']; [lia|].
    change (repeat 1 (S n')) with (1 :: repeat 1 n').
    eexists. split; [reflexivity|].
    change (1 :: repeat 1 n') with (repeat 1 (S n')).
    rewrite repeat_length. split.
    + rewrite length_map, length_seq. reflexivity.
    + intros _. reflexivity.
Qed.

Lemma mavg_col_length (w : Z) (vs : list Q) :
  (1 <= w <= Z.of_nat (length vs))%Z -> length (mavg_col w vs) = length vs.
Proof.
  intros Hw. unfold mavg_col, window_sums.
  rewrite length_app, !length_map, length_seq, repeat_length. lia.
Qed.

Lemma moving_average_state (w : Z) s col s' :
  __moving_average__ w s = Return col s' -> s' = s.
Proof.
  unfold __moving_average__, bind, data_values, raise, ret.
  destruct (data s) as [df|] eqn:Hd; [|discriminate].
  destruct (values df) as [|x vs]; [discriminate|].
  cbv beta iota. rewrite Hd.
  destruct (w <? 0)%Z; [discriminate|].
  destruct (np_convolve_valid _ _); [|discriminate].
  intros [= _ <-]. reflexivity.
Qed.

Lemma moving_average_fits (w : Z) s df :
  data s = Some df -> (1 <= w <= Z.of_nat (length (values df)))%Z ->
  __moving_average__ w s = Return (mavg_col w (values df)) s.
Proof.
  intros Hd Hw.
  unfold __moving_average__, bind, data_values, raise, ret. rewrite Hd.
  cbv beta iota.
  destruct (values df) as [|x vs] eqn:Hvs; [simpl in Hw; lia|].
  rewrite Hd. cbv beta iota. rewrite Hvs.
  destruct (Z.ltb_spec w 0) as [Hneg|_]; [lia|].
  destruct (np_convolve_valid_ones (x :: vs) (Z.to_nat w))
    as (c & Hc & _ & Hfit); [discriminate | lia |].
  rewrite Hc, Hfit by lia. reflexivity.
Qed.

Lemma moving_average_returns_fit (w : Z) s df col s' :
  data s = Some df ->
  __moving_average__ w s = Return col s' ->
  length col = length (values df) ->
  (1 <= w <= Z.of_nat (length (values df)))%Z.
Proof.
  intros Hd.
  unfold __moving_average__, bind, data_values, raise, ret. rewrite Hd.
  cbv beta iota.
  destruct (values df) as [|x vs] eqn:Hvs; [discriminate|].
  rewrite Hd. cbv beta iota. rewrite Hvs.
  destruct (Z.ltb_spec w 0) as [Hneg|Hpos]; [discriminate|].
  destruct (Z.eq_dec w 0) as [->|Hnz]; [discriminate|].
  destruct (np_convolve_valid_ones (x :: vs) (Z.to_nat w))
    as (c & Hc & Hlen & _); [discriminate | lia |].
  rewrite Hc. intros [= <- _].
  rewrite length_app, length_map, repeat_length, Hlen.
  destruct (Nat.ltb_spec (length (x :: vs)) (Z.to_nat w)); lia.
Qed.

Lemma map2_length {A B C} (f : A -> B -> C) (xs : list A) (ys : list B) :
  length xs = length ys -> length (map2 f xs ys) = length xs.
Proof.
  revert ys. induction xs as [|x xs IH]; intros [|y ys] H; simpl in *;
    try reflexivity; try discriminate.
  f_equal. apply IH. lia.
Qed.

Lemma map2_nth {A B C} (f : A -> B -> C) (xs : list A) (ys : list B)
      (i : nat) (a : A) (b : B) (c : C) :
  (i < length xs)%nat -> (i < length ys)%nat ->
  nth i (map2 f xs ys) c = f (nth i xs a) (nth i ys b).
Proof.
  revert ys i. induction xs as [|x xs IH]; intros [|y ys] [|i] Hx Hy;
    simpl in *; try lia; try reflexivity.
  apply IH; lia.
Qed.

Lemma mavg_calc_fits s df sw fw :
  data s = Some df ->
  slow_mavg_window s = Some sw -> fast_mavg_window s = Some fw ->
  (1 <= sw <= Z.of_nat (length (values df)))%Z ->
  (1 <= fw <= Z.of_nat (length (values df)))%Z ->
  __mavg_calc__ s = Return tt (with_data (mavg_frame sw fw df) s).
Proof.
  intros Hd Hsw Hfw Hs Hf. unfold __mavg_calc__.
  rewrite (bind_Return _ _ _ _ _ (data_values_ok s df Hd)).
  rewrite (bind_Return _ _ _ _ _ (assign_ok with_slow_ma (values df) s df Hd eq_refl)).
  set (df1 := with_slow_ma (values df) df).
  set (s1 := with_data df1 s).
  rewrite (bind_Return _ _ _ _ _ (getattr_ok slow_mavg_window s1 sw Hsw)).
  rewrite (bind_Return _ _ _ _ _ (moving_average_fits sw s1 df1 eq_refl Hs)).
  rewrite (bind_Return _ _ _ _ _
             (assign_ok with_slow_ma (mavg_col sw (values df)) s1 df1 eq_refl
                (mavg_col_length sw (values df) Hs))).
  set (df2 := with_slow_ma (mavg_col sw (values df)) df1).
  set (s2 := with_data df2 s1).
  rewrite (bind_Return _ _ _ _ _ (data_values_ok s2 df2 eq_refl)).
  rewrite (bind_Return _ _ _ _ _ (assign_ok with_fast_ma (values df) s2 df2 eq_refl eq_refl)).
  set (df3 := with_fast_ma (values df) df2).
  set (s3 := with_data df3 s2).
  rewrite (bind_Return _ _ _ _ _ (getattr_ok fast_mavg_window s3 fw Hfw)).
  rewrite (bind_Return _ _ _ _ _ (moving_average_fits fw s3 df3 eq_refl Hf)).
  rewrite (bind_Return _ _ _ _ _
             (assign_ok with_fast_ma (mavg_col fw (values df)) s3 df3 eq_refl
                (mavg_col_length fw (values df) Hf))).
  set (df4 := with_fast_ma (mavg_col fw (values df)) df3).
  set (s4 := with_data df4 s3).
  rewrite (bind_Return _ _ _ _ _ (column_ok slow_ma s4 df4 (mavg_col sw (values df)) eq_refl eq_refl)).
  rewrite (bind_Return _ _ _ _ _ (column_ok fast_ma s4 df4 (mavg_col fw (values df)) eq_refl eq_refl)).
  rewrite (assign_ok with_delta_ma _ s4 df4 eq_refl).
  - reflexivity.
  - rewrite map2_length.
    + apply (mavg_col_length sw (values df) Hs).
    + rewrite (mavg_col_length sw (values df) Hs).
      rewrite (mavg_col_length fw (values df) Hf). reflexivity.
Qed.

Lemma mavg_calc_returns s df sw fw u s' :
  data s = Some df ->
  slow_mavg_window s = Some sw -> fast_mavg_window s = Some fw ->
  __mavg_calc__ s = Return u s' ->
  (1 <= sw <= Z.of_nat (length (values df)))%Z /\
  (1 <= fw <= Z.of_nat (length (values df)))%Z.
Proof.
  intros Hd Hsw Hfw H. unfold __mavg_calc__ in H.
  rewrite (bind_Return _ _ _ _ _ (data_values_ok s df Hd)) in H.
  rewrite (bind_Return _ _ _ _ _
             (assign_ok with_slow_ma (values df) s df Hd eq_refl)) in H.
  set (df1 := with_slow_ma (values df) df) in H.
  set (s1 := with_data df1 s) in H.
  rewrite (bind_Return _ _ _ _ _ (getattr_ok slow_mavg_window s1 sw Hsw)) in H.
  destruct (__moving_average__ sw s1) as [c1 s1'|e s1'] eqn:Hma1.
  2:{ rewrite (bind_Raise _ _ _ _ _ Hma1) in H. discriminate. }
  pose proof (moving_average_state _ _ _ _ Hma1) as ->.
  rewrite (bind_Return _ _ _ _ _ Hma1) in H.
  destruct (Nat.eq_dec (length c1) (length (values df))) as [Hl1|Hl1].
  2:{ rewrite (bind_Raise _ _ _ _ _
                 (assign_mismatch with_slow_ma c1 s1 df1 eq_refl Hl1)) in H.
      discriminate. }
  pose proof (moving_average_returns_fit sw s1 df1 c1 s1 eq_refl Hma1 Hl1) as Hs.
  split; [exact Hs|].
  rewrite (bind_Return _ _ _ _ _
             (assign_ok with_slow_ma c1 s1 df1 eq_refl Hl1)) in H.
  set (df2 := with_slow_ma c1 df1) in H.
  set (s2 := with_data df2 s1) in H.
  rewrite (bind_Return _ _ _ _ _ (data_values_ok s2 df2 eq_refl)) in H.
  rewrite (bind_Return _ _ _ _ _
             (assign_ok with_fast_ma (values df) s2 df2 eq_refl eq_refl)) in H.
  set (df3 := with_fast_ma (values df) df2) in H.
  set (s3 := with_data df3 s2) in H.
  rewrite (bind_Return _ _ _ _ _ (getattr_ok fast_mavg_window s3 fw Hfw)) in H.
  destruct (__moving_average__ fw s3) as [c2 s3'|e s3'] eqn:Hma2.
  2:{ rewrite (bind_Raise _ _ _ _ _ Hma2) in H. discriminate. }
  pose proof (moving_average_state _ _ _ _ Hma2) as ->.
  rewrite (bind_Return _ _ _ _ _ Hma2) in H.
  destruct (Nat.eq_dec (length c2) (length (values df))) as [Hl2|Hl2].
  2:{ rewrite (bind_Raise _ _ _ _ _
                 (assign_mismatch with_fast_ma c2 s3 df3 eq_refl Hl2)) in H.
      discriminate. }
  exact (moving_average_returns_fit fw s3 df3 c2 s3 eq_refl Hma2 Hl2).
Qed.

(** C1, as stated, fails: on the readings 1..21 with window 5 the last
    computed average (position 16, window 17..21) is 19, yet the final
    position holds 21, the raw last reading. *)
Lemma moving_average_padding_counterexample :
  exists col,
    __moving_average__ 5
      (with_data (frame_of readings_1_to_21) default_detector)
    = Return col (with_data (frame_of readings_1_to_21) default_detector) /\
    nth 16 col 0 == 19 /\
    nth 20 col 0 == 21 /\
    ~ nth 20 col 0 == nth 16 col 0.
Proof.
  eexists. split; [vm_compute; reflexivity|].
  split; [vm_compute; reflexivity|].
  split; [vm_compute; reflexivity|].
  intros H. vm_compute in H. discriminate.
Qed.

(** C1, amended.  On a loaded series of length [N] and for a window
    [1 <= w <= N], [__moving_average__(w)] returns a column of length [N]
    whose entry [i] is, for [i <= N - w], the arithmetic mean of
    [series[i..i+w-1]], and whose last [w-1] entries are all the raw last
    reading of the series. *)
Theorem moving_average_mean_then_last_reading :
  forall (s : AlertDetector) (df : DataFrame) (w : Z),
    data s = Some df ->
    (1 <= w <= Z.of_nat (length (values df)))%Z ->
    exists col,
      __moving_average__ w s = Return col s /\
      length col = length (values df) /\
      (forall i, (i + Z.to_nat w <= length (values df))%nat ->
         nth i col 0
         == Qsum (firstn (Z.to_nat w) (skipn i (values df))) / inject_Z w) /\
      (forall i, (length (values df) < i + Z.to_nat w)%nat ->
         (i < length (values df))%nat ->
         nth i col 0 = last (values df) 0).
Proof.
  intros s df w Hd Hw. exists (mavg_col w (values df)).
  split; [apply moving_average_fits; assumption|].
  split; [apply mavg_col_length; assumption|].
  assert (Hlen : length (map (fun x => x / inject_Z w)
                          (window_sums (Z.to_nat w) (values df)))
                 = (length (values df) - Z.to_nat w + 1)%nat).
  { unfold window_sums. rewrite !length_map, length_seq. reflexivity. }
  split.
  - intros i Hi. unfold mavg_col.
    set (f := fun x : Q => x / inject_Z w) in *.
    rewrite app_nth1 by lia.
    rewrite (nth_indep _ 0 (f 0)) by lia.
    rewrite map_nth. unfold f, window_sums.
    set (g := fun k => dot (firstn (Z.to_nat w) (skipn k (values df)))
                           (rev (np_ones (Z.to_nat w)))).
    rewrite (nth_indep _ 0 (g 0%nat))
      by (rewrite length_map, length_seq; lia).
    rewrite map_nth, seq_nth by lia. unfold g. simpl (0 + i)%nat.
    rewrite dot_window_ones; [reflexivity|].
    rewrite length_firstn, length_skipn. lia.
  - intros i Hi Hn. unfold mavg_col.
    rewrite app_nth2 by lia.
    rewrite (nth_indep _ 0 (last (values df) 0))
      by (rewrite repeat_length; lia).
    apply nth_repeat.
Qed.

Lemma moving_average_mean_then_last_reading_witness :
  exists col,
    __moving_average__ 5
      (with_data (frame_of readings_1_to_21) default_detector)
    = Return col (with_data (frame_of readings_1_to_21) default_detector) /\
    nth 16 col 0 == Qsum (map inject_Z [17; 18; 19; 20; 21]%Z) / 5 /\
    nth 17 col 0 = 21.
Proof.
  destruct (moving_average_mean_then_last_reading
              (with_data (frame_of readings_1_to_21) default_detector)
              (frame_of readings_1_to_21) 5 eq_refl)
    as (col & Hrun & _ & Hmean & Hpad).
  - vm_compute. split; discriminate.
  - exists col. split; [exact Hrun|]. split.
    + apply (Hmean 16%nat). vm_compute. lia.
    + apply (Hpad 17%nat); vm_compute; lia.
Defined.

(** C9, as stated, fails: after [set_slow_mavg_window(22)] and loading
    the 21 readings 1..21 (both accepted), [__moving_average__(22)]
    returns 23 entries for the 21 samples, and [__mavg_calc__] aborts with
    [ValueError], leaving no [fast_ma] and no [delta_ma] column. *)
Lemma mavg_length_counterexample :
  exists s,
    (b1 <- set_slow_mavg_window (PyInt 22) ;;
     b2 <- set_data (Frame (frame_of readings_1_to_21)) ;;
     ret (b1 && b2)) default_detector = Return true s /\
    (exists col,
        __moving_average__ 22 s = Return col s /\
        length col = 23%nat /\ length readings_1_to_21 = 21%nat) /\
    (exists s' df',
        __mavg_calc__ s = Raise ValueError s' /\
        data s' = Some df' /\ fast_ma df' = None /\ delta_ma df' = None).
Proof.
  eexists. split; [vm_compute; reflexivity|]. split.
  - eexists. split; [vm_compute; reflexivity|]. split; reflexivity.
  - eexists. eexists. split; [vm_compute; reflexivity|].
    split; [reflexivity|]. split; reflexivity.
Qed.

(** C9, amended.  On a loaded series of length [N] with both windows
    between 1 and [N] (for a configured detector: [N >= slow_window]),
    [__mavg_calc__] returns and leaves the columns [slow_ma], [fast_ma]
    and [delta_ma], each of length [N], with
    [delta_ma[i] = slow_ma[i] - fast_ma[i]] at every index; the readings
    are untouched.  Conversely [__mavg_calc__] returns only if both
    windows are between 1 and [N]. *)
Theorem mavg_calc_columns :
  forall (s : AlertDetector) (df : DataFrame) (sw fw : Z),
    data s = Some df ->
    slow_mavg_window s = Some sw -> fast_mavg_window s = Some fw ->
    ((1 <= sw <= Z.of_nat (length (values df)))%Z ->
     (1 <= fw <= Z.of_nat (length (values df)))%Z ->
     exists s' df' sl fa de,
       __mavg_calc__ s = Return tt s' /\
       data s' = Some df' /\ values df' = values df /\
       slow_ma df' = Some sl /\ fast_ma df' = Some fa /\
       delta_ma df' = Some de /\
       length sl = length (values df) /\
       length fa = length (values df) /\
       length de = length (values df) /\
       forall i, (i < length (values df))%nat ->
                 nth i de 0 = nth i sl 0 - nth i fa 0) /\
    (forall u s', __mavg_calc__ s = Return u s' ->
       (1 <= sw <= Z.of_nat (length (values df)))%Z /\
       (1 <= fw <= Z.of_nat (length (values df)))%Z).
Proof.
  intros s df sw fw Hd Hsw Hfw. split.
  - intros Hs Hf.
    exists (with_data (mavg_frame sw fw df) s), (mavg_frame sw fw df),
      (mavg_col sw (values df)), (mavg_col fw (values df)),
      (map2 Qminus (mavg_col sw (values df)) (mavg_col fw (values df))).
    pose proof (mavg_col_length sw (values df) Hs) as Ls.
    pose proof (mavg_col_length fw (values df) Hf) as Lf.
    split; [apply mavg_calc_fits; assumption|].
    repeat (split; [reflexivity|]).
    split; [exact Ls|]. split; [exact Lf|].
    split; [rewrite map2_length; congruence|].
    intros i Hi. apply map2_nth; lia.
  - intros u s' H. eapply mavg_calc_returns; eassumption.
Qed.

Lemma mavg_calc_columns_witness :
  exists s' df' sl fa de,
    __mavg_calc__ (with_data (frame_of readings_1_to_21) default_detector)
      = Return tt s' /\
    data s' = Some df' /\ values df' = readings_1_to_21 /\
    slow_ma df' = Some sl /\ fast_ma df' = Some fa /\
    delta_ma df' = Some de /\
    length sl = 21%nat /\ length fa = 21%nat /\ length de = 21%nat /\
    forall i, (i < 21)%nat -> nth i de 0 = nth i sl 0 - nth i fa 0.
Proof.
  apply (proj1 (mavg_calc_columns
                  (with_data (frame_of readings_1_to_21) default_detector)
                  (frame_of readings_1_to_21) 20 5 eq_refl eq_refl eq_refl)).
  - vm_compute. split; discriminate.
  - vm_compute. split; discriminate.
Defined.

(** ** The rupture rule *)

Lemma bind_Return_inv {A B} (m : M A) (f : A -> M B) s b s' :
  bind m f s = Return b s' ->
  exists a s1, m s = Return a s1 /\ f a s1 = Return b s'.
Proof.
  unfold bind. destruct (m s) as [a s1|e s1]; [|discriminate].
  intros H. exists a, s1. split; [reflexivity | exact H].
Qed.

Lemma within_not_outside (lo : Q) (up : bound) (v : Q) :
  within lo up v -> ~ (v < lo \/ above v up).
Proof.
  intros [H1 H2] [H|H].
  - exact (Qlt_not_le _ _ H H1).
  - destruct up as [u|]; simpl in *; [exact (Qlt_not_le _ _ H H2) | exact H].
Qed.

Lemma bound_gtb_above (v : Q) (b : bound) : bound_gtb v b = true <-> above v b.
Proof. destruct b as [u|]; simpl; [apply Qltb_lt | split; [discriminate | tauto]]. Qed.

Lemma maxmin_flag_one (lo : Q) (up : bound) (v : Q) :
  maxmin_flag lo up v = 1%Z <-> v < lo \/ above v up.
Proof.
  unfold maxmin_flag. rewrite <- Qltb_lt, <- bound_gtb_above, <- orb_true_iff.
  destruct (Qltb v lo || bound_gtb v up); split; intros H;
    try reflexivity; try discriminate.
Qed.

Lemma mapM_maxmin_calc s lo up (vs : list Q) :
  lower_limit s = Some lo -> upper_limit s = Some up ->
  mapM __maxmin_calc__ vs s = Return (map (maxmin_flag lo up) vs) s.
Proof.
  intros Hlo Hup. induction vs as [|v vs IH]; [reflexivity|].
  simpl. unfold bind at 1. unfold __maxmin_calc__ at 1.
  rewrite (bind_Return _ _ _ _ _ (getattr_ok lower_limit s lo Hlo)).
  unfold maxmin_flag at 1.
  destruct (Qltb v lo); simpl.
  - unfold ret at 1. rewrite (bind_Return _ _ _ _ _ IH). reflexivity.
  - rewrite (bind_Return _ _ _ _ _ (getattr_ok upper_limit s up Hup)).
    destruct (bound_gtb v up); unfold ret at 1;
      rewrite (bind_Return _ _ _ _ _ IH); reflexivity.
Qed.

Lemma detect_maxmin_rupture_run s df lo up :
  data s = Some df -> lower_limit s = Some lo -> upper_limit s = Some up ->
  detect_maxmin_rupture s
  = Return true
      (with_data (with_maxmin_alert (map (maxmin_flag lo up) (values df)) df) s).
Proof.
  intros Hd Hlo Hup. unfold detect_maxmin_rupture.
  rewrite (bind_Return _ _ _ _ _ (data_object_ok s df Hd)).
  rewrite (bind_Return _ _ _ _ _ (mapM_maxmin_calc s lo up (values df) Hlo Hup)).
  rewrite (bind_Return _ _ _ _ _
             (assign_ok with_maxmin_alert _ s df Hd
                (length_map (maxmin_flag lo up) (values df)))).
  reflexivity.
Qed.

(** C8.  On a loaded series, with limits [lo] and [up],
    [detect_maxmin_rupture] returns [True], and the column [maxmin_alert]
    read back from the detector it leaves has the series' length, with
    entry [i] equal to 1 if [values[i] < lo] or [values[i] > up] and to 0
    otherwise.  No window and no moving-average column enters: none need
    exist, the readings and the columns [slow_ma], [fast_ma] and
    [delta_ma] are left as they were, and the flags are a function of the
    readings and the two limits alone.  The flags are all 0 when every
    reading lies within [[lo, up]]. *)
Theorem detect_maxmin_rupture_flags :
  forall (s : AlertDetector) (df : DataFrame) (lo : Q) (up : bound),
    data s = Some df ->
    lower_limit s = Some lo -> upper_limit s = Some up ->
    exists s' flags,
      detect_maxmin_rupture s = Return true s' /\
      column_of maxmin_alert s' = Some flags /\
      length flags = length (values df) /\
      (forall i, (i < length (values df))%nat ->
         (nth i flags 0%Z = 1%Z <->
            nth i (values df) 0 < lo \/ above (nth i (values df) 0) up) /\
         (nth i flags 0%Z = 0%Z <->
            ~ (nth i (values df) 0 < lo \/ above (nth i (values df) 0) up))) /\
      flags = map (maxmin_flag lo up) (values df) /\
      option_map values (data s') = option_map values (data s) /\
      column_of slow_ma s' = column_of slow_ma s /\
      column_of fast_ma s' = column_of fast_ma s /\
      column_of delta_ma s' = column_of delta_ma s /\
      ((forall v, In v (values df) -> within lo up v) ->
       forall i, (i < length (values df))%nat -> nth i flags 0%Z = 0%Z).
Proof.
  intros s df lo up Hd Hlo Hup.
  exists (with_data (with_maxmin_alert (map (maxmin_flag lo up) (values df)) df)
            s),
    (map (maxmin_flag lo up) (values df)).
  assert (Hnth : forall i, (i < length (values df))%nat ->
            nth i (map (maxmin_flag lo up) (values df)) 0%Z
            = maxmin_flag lo up (nth i (values df) 0)).
  { intros i Hi.
    rewrite (nth_indep _ 0%Z (maxmin_flag lo up 0))
      by (rewrite length_map; exact Hi).
    apply map_nth. }
  split; [apply detect_maxmin_rupture_run; assumption|].
  split; [reflexivity|]. split; [apply length_map|]. split.
  - intros i Hi. rewrite (Hnth i Hi), <- maxmin_flag_one.
    unfold maxmin_flag.
    destruct (Qltb _ lo || bound_gtb _ up); split; split; intros H;
      try reflexivity; try discriminate; try (exfalso; apply H; reflexivity).
  - split; [reflexivity|].
    unfold column_of. rewrite Hd. cbn [data with_data].
    do 4 (split; [reflexivity|]).
    intros Hin i Hi. rewrite (Hnth i Hi).
    pose proof (within_not_outside _ _ _ (Hin _ (nth_In (values df) 0 Hi)))
      as Hw.
    destruct (maxmin_flag lo up (nth i (values df) 0%Q) =? 1)%Z eqn:E.
    + apply Z.eqb_eq, maxmin_flag_one in E. contradiction.
    + unfold maxmin_flag in *.
      destruct (Qltb _ lo || bound_gtb _ up); [discriminate | reflexivity].
Qed.

Lemma detect_maxmin_rupture_flags_witness :
  exists s' flags,
    detect_maxmin_rupture
      (with_data (frame_of readings_50_500_2000) default_detector)
    = Return true s' /\
    column_of maxmin_alert s' = Some flags /\
    nth 0 flags 0%Z = 1%Z /\ nth 1 flags 0%Z = 0%Z /\ nth 2 flags 0%Z = 1%Z.
Proof.
  destruct (detect_maxmin_rupture_flags
              (with_data (frame_of readings_50_500_2000) default_detector)
              (frame_of readings_50_500_2000) (inject_Z 100)
              (Finite (inject_Z 1300)) eq_refl eq_refl eq_refl)
    as (s' & flags & Hrun & Hcol & _ & Hflag & _).
  exists s', flags. split; [exact Hrun|]. split; [exact Hcol|].
  assert (L : forall i, (i < 3)%nat ->
            (i < length (values (frame_of readings_50_500_2000)))%nat)
    by (intros i Hi; vm_compute; lia).
  split; [|split].
  - apply (Hflag 0%nat (L 0%nat ltac:(lia))). left. reflexivity.
  - apply (Hflag 1%nat (L 1%nat ltac:(lia))).
    intros [H|H]; vm_compute in H; discriminate.
  - apply (Hflag 2%nat (L 2%nat ltac:(lia))). right. reflexivity.
Defined.

(** ** The slope rule *)

Lemma mapM_mavg_delta_calc s md (xs : list Q) :
  mavg_delta s = Some md ->
  mapM __mavg_delta_calc__ xs s = Return (map (slope_flag md) xs) s.
Proof.
  intros Hmd. induction xs as [|x xs IH]; [reflexivity|].
  simpl. unfold bind at 1. unfold __mavg_delta_calc__ at 1.
  rewrite (bind_Return _ _ _ _ _ (getattr_ok mavg_delta s md Hmd)).
  unfold slope_flag at 1.
  destruct (Qltb x (md * -(1))); simpl.
  - unfold ret at 1. rewrite (bind_Return _ _ _ _ _ IH). reflexivity.
  - rewrite (bind_Return _ _ _ _ _ (getattr_ok mavg_delta s md Hmd)).
    destruct (Qltb md x); unfold ret at 1;
      rewrite (bind_Return _ _ _ _ _ IH); reflexivity.
Qed.

Lemma delta_col_length (sw fw : Z) (vs : list Q) :
  (1 <= sw <= Z.of_nat (length vs))%Z ->
  (1 <= fw <= Z.of_nat (length vs))%Z ->
  length (delta_col sw fw vs) = length vs.
Proof.
  intros Hs Hf. unfold delta_col.
  rewrite map2_length; rewrite !mavg_col_length by assumption; reflexivity.
Qed.

Lemma detect_fast_slope_fits s df sw fw md :
  data s = Some df ->
  slow_mavg_window s = Some sw -> fast_mavg_window s = Some fw ->
  mavg_delta s = Some md ->
  (1 <= sw <= Z.of_nat (length (values df)))%Z ->
  (1 <= fw <= Z.of_nat (length (values df)))%Z ->
  detect_fast_slope s
  = Return true
      (with_data
         (with_delta_ma_alert
            (map (slope_flag md) (delta_col sw fw (values df)))
            (mavg_frame sw fw df)) s).
Proof.
  intros Hd Hsw Hfw Hmd Hs Hf. unfold detect_fast_slope.
  rewrite (bind_Return _ _ _ _ _ (mavg_calc_fits s df sw fw Hd Hsw Hfw Hs Hf)).
  set (df1 := mavg_frame sw fw df). set (s1 := with_data df1 s).
  rewrite (bind_Return _ _ _ _ _ (data_object_ok s1 df1 eq_refl)).
  rewrite (bind_Return _ _ _ _ _
             (column_ok delta_ma s1 df1 (delta_col sw fw (values df))
                eq_refl eq_refl)).
  rewrite (bind_Return _ _ _ _ _
             (mapM_mavg_delta_calc s1 md (delta_col sw fw (values df)) Hmd)).
  rewrite (bind_Return _ _ _ _ _
             (assign_ok with_delta_ma_alert
                (map (slope_flag md) (delta_col sw fw (values df))) s1 df1
                eq_refl
                (eq_trans (length_map _ _)
                          (delta_col_length sw fw (values df) Hs Hf)))).
  reflexivity.
Qed.

Lemma detect_fast_slope_returns s df sw fw b s' :
  data s = Some df ->
  slow_mavg_window s = Some sw -> fast_mavg_window s = Some fw ->
  detect_fast_slope s = Return b s' ->
  (1 <= sw <= Z.of_nat (length (values df)))%Z /\
  (1 <= fw <= Z.of_nat (length (values df)))%Z.
Proof.
  intros Hd Hsw Hfw H. unfold detect_fast_slope in H.
  apply bind_Return_inv in H. destruct H as (u & s1 & H & _).
  eapply mavg_calc_returns; eassumption.
Qed.

(** ** The plateau rule *)

Lemma foldM_plateau_row s pd pl (xs : list Q) :
  plateau_delta s = Some pd -> plateau_length s = Some pl ->
  forall (pcnt : Z) (acc : list Z),
    foldM plateau_row (pcnt, acc) xs s
    = Return (fold_left (plateau_next pd) xs pcnt,
              acc ++ plateau_scan pd pl pcnt xs) s.
Proof.
  intros Hpd Hpl. induction xs as [|x xs IH]; intros pcnt acc.
  - simpl. rewrite app_nil_r. reflexivity.
  - simpl. unfold bind at 1. unfold plateau_row at 1.
    rewrite (bind_Return _ _ _ _ _ (getattr_ok plateau_delta s pd Hpd)).
    rewrite (bind_Return _ _ _ _ _ (getattr_ok plateau_length s pl Hpl)).
    unfold ret at 1. simpl fst. simpl snd.
    fold (plateau_next pd pcnt x).
    rewrite IH. rewrite <- app_assoc. reflexivity.
Qed.

Lemma plateau_scan_length pd pl pcnt xs :
  length (plateau_scan pd pl pcnt xs) = length xs.
Proof.
  revert pcnt. induction xs as [|x xs IH]; intros pcnt; simpl;
    [reflexivity | f_equal; apply IH].
Qed.

Lemma detect_plateau_fits s df sw fw pd pl :
  data s = Some df ->
  slow_mavg_window s = Some sw -> fast_mavg_window s = Some fw ->
  plateau_delta s = Some pd -> plateau_length s = Some pl ->
  (1 <= sw <= Z.of_nat (length (values df)))%Z ->
  (1 <= fw <= Z.of_nat (length (values df)))%Z ->
  detect_plateau s
  = Return true
      (with_data
         (with_plateau_alert
            (plateau_scan pd pl 0 (delta_col sw fw (values df)))
            (mavg_frame sw fw df)) s).
Proof.
  intros Hd Hsw Hfw Hpd Hpl Hs Hf. unfold detect_plateau.
  rewrite (bind_Return _ _ _ _ _ (mavg_calc_fits s df sw fw Hd Hsw Hfw Hs Hf)).
  set (df1 := mavg_frame sw fw df). set (s1 := with_data df1 s).
  rewrite (bind_Return _ _ _ _ _ (data_object_ok s1 df1 eq_refl)).
  rewrite (bind_Return _ _ _ _ _ (data_object_ok s1 df1 eq_refl)).
  rewrite (bind_Return _ _ _ _ _
             (column_ok delta_ma s1 df1 (delta_col sw fw (values df))
                eq_refl eq_refl)).
  rewrite (bind_Return _ _ _ _ _
             (foldM_plateau_row s1 pd pl (delta_col sw fw (values df))
                Hpd Hpl 0%Z [])).
  simpl snd.
  rewrite (bind_Return _ _ _ _ _
             (assign_ok with_plateau_alert
                (plateau_scan pd pl 0 (delta_col sw fw (values df))) s1 df1
                eq_refl
                (eq_trans (plateau_scan_length _ _ _ _)
                          (delta_col_length sw fw (values df) Hs Hf)))).
  reflexivity.
Qed.

Lemma detect_plateau_returns s df sw fw b s' :
  data s = Some df ->
  slow_mavg_window s = Some sw -> fast_mavg_window s = Some fw ->
  detect_plateau s = Return b s' ->
  (1 <= sw <= Z.of_nat (length (values df)))%Z /\
  (1 <= fw <= Z.of_nat (length (values df)))%Z.
Proof.
  intros Hd Hsw Hfw H. unfold detect_plateau in H.
  apply bind_Return_inv in H. destruct H as (u & s1 & H & _).
  eapply mavg_calc_returns; eassumption.
Qed.

Lemma default_parameter_ranges : parameter_ranges default_detector.
Proof.
  exists (inject_Z 70), 2000%Z, (inject_Z 2).
  repeat split; try reflexivity; try lia. unfold Qle; simpl; lia.
Qed.

Ltac run_setter_in H :=
  cbv [call set_lower_limit set_upper_limit set_slow_mavg_window
       set_fast_mavg_window set_mavg_delta set_plateau_length
       set_plateau_delta bind ret modify getattr hasattr
       set_mavg_delta_locals in_locals] in H.

Lemma call_parameter_ranges (c : setter_call) s b s' :
  parameter_ranges s -> call c s = Return b s' -> parameter_ranges s'.
Proof.
  intros (md & pl & pd & Hmd & Hpl & Hpd & Hl & Hd) H.
  assert (Hsame : parameter_ranges s)
    by (exists md, pl, pd; repeat split; assumption).
  destruct c as [v|v|v|v|v|v|v]; run_setter_in H.
  - destruct (as_number v) as [l|]; [|injection H as _ <-; exact Hsame].
    destruct (upper_limit s) as [up|] eqn:Hup; simpl in H.
    + rewrite Hup in H.
      destruct (bound_leb up l); injection H as _ <-; [exact Hsame|].
      exists md, pl, pd. repeat split; assumption.
    + injection H as _ <-. exists md, pl, pd. repeat split; assumption.
  - destruct (as_number v) as [u|]; [|injection H as _ <-; exact Hsame].
    destruct (lower_limit s) as [lo|]; [|discriminate].
    destruct (Qle_bool u lo); injection H as _ <-; [exact Hsame|].
    exists md, pl, pd. repeat split; assumption.
  - destruct (as_int v) as [w|]; [|injection H as _ <-; exact Hsame].
    destruct (fast_mavg_window s) as [fw|] eqn:Hfw; simpl in H.
    + rewrite Hfw in H.
      destruct (w <=? fw)%Z; [injection H as _ <-; exact Hsame|].
      destruct (w <? 20)%Z; injection H as _ <-; [exact Hsame|].
      exists md, pl, pd. repeat split; assumption.
    + destruct (w <=? 5)%Z; [injection H as _ <-|].
      * exists md, pl, pd. repeat split; assumption.
      * destruct (w <? 20)%Z; injection H as _ <-;
          exists md, pl, pd; repeat split; assumption.
  - destruct (as_int v) as [w|]; [|injection H as _ <-; exact Hsame].
    destruct (slow_mavg_window s) as [sw|]; [|discriminate].
    destruct (sw <=? w)%Z; [injection H as _ <-; exact Hsame|].
    destruct (w <? 5)%Z; injection H as _ <-; [exact Hsame|].
    exists md, pl, pd. repeat split; assumption.
  - destruct (as_number v) as [d|]; [|injection H as _ <-; exact Hsame].
    simpl in H. injection H as _ <-.
    exists d, pl, pd. repeat split; assumption.
  - destruct (as_int v) as [n|]; [|injection H as _ <-; exact Hsame].
    destruct (Z.ltb_spec n 10); injection H as _ <-; [exact Hsame|].
    exists md, n, pd. repeat split; assumption.
  - destruct (as_number v) as [d|]; [|injection H as _ <-; exact Hsame].
    destruct (Qltb d 0) eqn:E; injection H as _ <-; [exact Hsame|].
    apply Qltb_ge in E.
    exists md, pl, d. repeat split; assumption.
Qed.

Lemma calls_parameter_ranges (cs : list setter_call) :
  forall s s', parameter_ranges s -> calls cs s = Return tt s' ->
               parameter_ranges s'.
Proof.
  induction cs as [|c cs IH]; intros s s' Hs H.
  - injection H as <-. exact Hs.
  - simpl in H. apply bind_Return_inv in H.
    destruct H as (b & s1 & Hc & Hrest).
    eapply IH; [|exact Hrest].
    eapply call_parameter_ranges; eassumption.
Qed.

(** ** The plateau counter *)

Lemma firstn_succ_nth {A} (xs : list A) (i : nat) (d : A) :
  (i < length xs)%nat -> firstn (S i) xs = firstn i xs ++ [nth i xs d].
Proof.
  revert i. induction xs as [|x xs IH]; intros [|i] Hi; simpl in *;
    try lia; try reflexivity.
  f_equal. apply IH. lia.
Qed.

Lemma spec_run_fold (pd : Q) (xs : list Q) (i : nat) :
  (i < length xs)%nat ->
  spec_run pd xs i = fold_left (plateau_next pd) (firstn (S i) xs) 0%Z.
Proof.
  induction i as [|j IH]; intros Hi.
  - destruct xs as [|x xs]; [simpl in Hi; lia|]. reflexivity.
  - rewrite (firstn_succ_nth xs (S j) 0 Hi), fold_left_app.
    change (spec_run pd xs (S j)
            = plateau_next pd
                (fold_left (plateau_next pd) (firstn (S j) xs) 0%Z)
                (nth (S j) xs 0)).
    rewrite <- IH by lia. reflexivity.
Qed.

Lemma plateau_scan_nth (pd : Q) (pl : Z) (xs : list Q) :
  forall (pcnt : Z) (i : nat),
    (i < length xs)%nat ->
    nth i (plateau_scan pd pl pcnt xs) 0%Z
    = if (pl <? fold_left (plateau_next pd) (firstn (S i) xs) pcnt)%Z
      then 1%Z else 0%Z.
Proof.
  induction xs as [|x xs IH]; intros pcnt [|i] Hi; simpl in Hi; try lia.
  - reflexivity.
  - change (nth i (plateau_scan pd pl (plateau_next pd pcnt x) xs) 0%Z
            = if (pl <? fold_left (plateau_next pd) (firstn (S i) xs)
                          (plateau_next pd pcnt x))%Z
              then 1%Z else 0%Z).
    apply IH. lia.
Qed.

Lemma plateau_scan_spec_run (pd : Q) (pl : Z) (xs : list Q) (i : nat) :
  (i < length xs)%nat ->
  nth i (plateau_scan pd pl 0 xs) 0%Z
  = if (pl <? spec_run pd xs i)%Z then 1%Z else 0%Z.
Proof.
  intros Hi. rewrite plateau_scan_nth, spec_run_fold by exact Hi. reflexivity.
Qed.

(** ** Runs of small differences *)

Lemma plateau_next_below (pd : Q) (pcnt : Z) (x : Q) :
  Qabs x < pd -> plateau_next pd pcnt x = (pcnt + 1)%Z.
Proof.
  intros Hx. unfold plateau_next.
  assert (H : Qltb (Qabs x) pd = true) by (apply Qltb_lt; exact Hx).
  rewrite H. reflexivity.
Qed.

Lemma plateau_scan_below (pd : Q) (pl : Z) (xs : list Q) :
  Forall (fun x => Qabs x < pd) xs ->
  forall (pcnt : Z) (i : nat),
    (i < length xs)%nat ->
    nth i (plateau_scan pd pl pcnt xs) 0%Z
    = if (pl <? pcnt + Z.of_nat i + 1)%Z then 1%Z else 0%Z.
Proof.
  intros Hx. induction Hx as [|x xs Hx _ IH]; intros pcnt i Hi;
    [simpl in Hi; lia|].
  cbn [plateau_scan]. rewrite (plateau_next_below pd pcnt x Hx).
  destruct i as [|i].
  - cbn [nth]. replace (pcnt + Z.of_nat 0 + 1)%Z with (pcnt + 1)%Z by lia.
    reflexivity.
  - cbn [nth]. rewrite IH by (simpl in Hi; lia).
    replace (pcnt + 1 + Z.of_nat i + 1)%Z with (pcnt + Z.of_nat (S i) + 1)%Z
      by lia.
    reflexivity.
Qed.

Lemma plateau_next_zero_delta (pd : Q) (pcnt : Z) (x : Q) :
  pd == 0 -> plateau_next pd pcnt x = 0%Z.
Proof.
  intros Hpd. unfold plateau_next.
  assert (H : Qltb (Qabs x) pd = false).
  { apply Qltb_ge. rewrite Hpd. apply Qabs_nonneg. }
  rewrite H. reflexivity.
Qed.

Lemma plateau_scan_zero_delta (pd : Q) (pl : Z) (xs : list Q) :
  pd == 0 -> (0 <= pl)%Z ->
  forall pcnt, plateau_scan pd pl pcnt xs = repeat 0%Z (length xs).
Proof.
  intros Hpd Hpl. induction xs as [|x xs IH]; intros pcnt; [reflexivity|].
  cbn [plateau_scan length repeat].
  rewrite (plateau_next_zero_delta pd pcnt x Hpd), IH.
  destruct (Z.ltb_spec pl 0); [lia | reflexivity].
Qed.

(** C5, as stated, fails on floats.  The twenty-five readings are all the
    float 0.1, the windows are the default 20 and 5, [plateau_delta] is
    the positive float 1e-17 and [plateau_length] is 10, both accepted by
    their setters.  The sum of twenty readings is rounded, the slow
    average comes out as 0.10000000000000002, and the first six entries
    of [delta_ma] are [2^-56], about 1.39e-17, not below [plateau_delta];
    the counter restarts at index 6 and the flags are 0 up to index 15,
    whereas the claim has them 1 from index 10 on. *)
Lemma plateau_constant_series_counterexample :
  Forall (fun v => v = 0.1%float) Binary64.readings_tenth /\
  (0 <? 1e-17)%float = true /\
  Binary64.__moving_average__ 20 Binary64.readings_tenth
    = Some (repeat 0.10000000000000002%float 6 ++ repeat 0.1%float 19) /\
  Binary64.__moving_average__ 5 Binary64.readings_tenth
    = Some (repeat 0.1%float 25) /\
  Binary64.delta_ma 20 5 Binary64.readings_tenth
    = Some (repeat 0x1p-56%float 6 ++ repeat 0%float 19) /\
  (0x1p-56 <? 1e-17)%float = false /\
  exists flags,
    Binary64.detect_plateau 20 5 1e-17%float 10 Binary64.readings_tenth
      = Some flags /\
    flags = repeat 0%Z 16 ++ repeat 1%Z 9 /\
    nth 10 flags 0%Z = 0%Z /\ nth 15 flags 0%Z = 0%Z /\
    nth 16 flags 0%Z = 1%Z.
Proof.
  split; [repeat constructor|].
  split; [vm_compute; reflexivity|].
  split; [vm_compute; reflexivity|].
  split; [vm_compute; reflexivity|].
  split; [vm_compute; reflexivity|].
  split; [vm_compute; reflexivity|].
  eexists. split; [vm_compute; reflexivity|].
  repeat split.
Qed.

(** C5, amended.  On a configured detector with a loaded series, whenever
    [detect_plateau] returns it has added a [plateau_alert] column of the
    series' length whose entry [i] is 1 exactly when the run counter of
    the specification ([spec_run]: plus 1 while [|delta_ma[i]| <
    plateau_delta], back to 0 otherwise, in index order) exceeds
    [plateau_length] at sample [i], and 0 otherwise, [delta_ma] being the
    column the call has stored.  Consequently, when every entry of that
    [delta_ma] is below [plateau_delta] in absolute value, the flags are 0
    on the first [plateau_length] samples and 1 from index
    [plateau_length] on.  [detect_plateau] does return when both windows
    are between 1 and the series' length. *)
Theorem detect_plateau_run_counter :
  forall (s : AlertDetector) (df : DataFrame) (sw fw : Z) (pd : Q) (pl : Z),
    data s = Some df ->
    slow_mavg_window s = Some sw -> fast_mavg_window s = Some fw ->
    plateau_delta s = Some pd -> plateau_length s = Some pl ->
    (forall b s',
        detect_plateau s = Return b s' ->
        exists de flags,
          b = true /\
          option_map values (data s') = Some (values df) /\
          column_of delta_ma s' = Some de /\
          column_of plateau_alert s' = Some flags /\
          length de = length (values df) /\
          length flags = length (values df) /\
          (forall i, (i < length (values df))%nat ->
             (nth i flags 0%Z = 1%Z <-> (pl < spec_run pd de i)%Z) /\
             (nth i flags 0%Z = 0%Z <-> (spec_run pd de i <= pl)%Z)) /\
          (Forall (fun x => Qabs x < pd) de ->
           forall i, (i < length (values df))%nat ->
             ((Z.of_nat i < pl)%Z -> nth i flags 0%Z = 0%Z) /\
             ((pl <= Z.of_nat i)%Z -> nth i flags 0%Z = 1%Z))) /\
    ((1 <= sw <= Z.of_nat (length (values df)))%Z ->
     (1 <= fw <= Z.of_nat (length (values df)))%Z ->
     exists s', detect_plateau s = Return true s').
Proof.
  intros s df sw fw pd pl Hd Hsw Hfw Hpd Hpl. split.
  - intros b s' H.
    destruct (detect_plateau_returns s df sw fw b s' Hd Hsw Hfw H) as [Hs Hf].
    rewrite (detect_plateau_fits s df sw fw pd pl Hd Hsw Hfw Hpd Hpl Hs Hf) in H.
    injection H as <- <-.
    pose proof (delta_col_length sw fw (values df) Hs Hf) as Ld.
    exists (delta_col sw fw (values df)),
      (plateau_scan pd pl 0 (delta_col sw fw (values df))).
    split; [reflexivity|]. split; [reflexivity|].
    split; [reflexivity|]. split; [reflexivity|].
    split; [exact Ld|].
    split; [rewrite plateau_scan_length; exact Ld|]. split.
    + intros i Hi. rewrite plateau_scan_spec_run by lia.
      destruct (Z.ltb_spec pl (spec_run pd (delta_col sw fw (values df)) i));
        split; split; intros Hx; try reflexivity; try discriminate; lia.
    + intros Hbelow i Hi.
      rewrite (plateau_scan_below pd pl _ Hbelow) by lia.
      destruct (Z.ltb_spec pl (0 + Z.of_nat i + 1)); split; intros Hx;
        try reflexivity; lia.
  - intros Hs Hf. eexists.
    apply (detect_plateau_fits s df sw fw pd pl); assumption.
Qed.

Lemma detect_plateau_run_counter_witness :
  exists s' flags,
    detect_plateau
      (with_plateau_length 10
         (with_data (frame_of readings_50_500_2000) default_detector))
    = Return true s' /\
    column_of plateau_alert s' = Some flags /\
    nth 12 flags 0%Z = 0%Z /\ nth 13 flags 0%Z = 1%Z.
Proof.
  destruct (detect_plateau_run_counter
              (with_plateau_length 10
                 (with_data (frame_of readings_50_500_2000) default_detector))
              (frame_of readings_50_500_2000) 20 5 (inject_Z 2) 10
              eq_refl eq_refl eq_refl eq_refl eq_refl) as [Hret Hruns].
  destruct Hruns as [s' Hrun].
  - vm_compute. split; discriminate.
  - vm_compute. split; discriminate.
  - destruct (Hret true s' Hrun)
      as (de & flags & _ & _ & Hde & Hp & _ & _ & Hflag & _).
    exists s', flags. split; [exact Hrun|]. split; [exact Hp|].
    vm_compute in Hrun. injection Hrun as <-.
    vm_compute in Hde. injection Hde as <-.
    assert (L : forall i, (i < 25)%nat ->
              (i < length (values (frame_of readings_50_500_2000)))%nat)
      by (intros i Hi; vm_compute; lia).
    split.
    + destruct (Hflag 12%nat (L 12%nat ltac:(lia))) as [_ [_ H0]].
      apply H0. vm_compute. discriminate.
    + destruct (Hflag 13%nat (L 13%nat ltac:(lia))) as [[_ H1] _].
      apply H1. vm_compute. reflexivity.
Defined.

(** C10.  In every configuration reached from the default one by setter
    calls in which [plateau_delta] is 0 (a value [set_plateau_delta]
    accepts), and for every series: whenever [detect_plateau] returns, the
    [plateau_alert] column it leaves is all zeros, of the series' length;
    and it does return when [slow_window] is at most that length. *)
Theorem plateau_delta_zero_never_alerts :
  forall (cs : list setter_call) (s0 : AlertDetector) (df : DataFrame)
         (pd : Q),
    calls cs default_detector = Return tt s0 ->
    plateau_delta s0 = Some pd -> pd == 0 ->
    set_plateau_delta (PyInt 0) s0
      = Return true (with_plateau_delta (inject_Z 0) s0) /\
    (forall b s',
        detect_plateau (with_data df s0) = Return b s' ->
        exists df',
          b = true /\ data s' = Some df' /\ values df' = values df /\
          plateau_alert df' = Some (repeat 0%Z (length (values df)))) /\
    (forall sw,
        slow_mavg_window s0 = Some sw ->
        (sw <= Z.of_nat (length (values df)))%Z ->
        exists s', detect_plateau (with_data df s0) = Return true s').
Proof.
  intros cs s0 df pd Hrun Hpd Hzero.
  destruct (calls_relational_invariants cs default_detector
              default_relational_invariants) as (s0' & Hrun' & Hinv).
  rewrite Hrun in Hrun'. injection Hrun' as <-.
  destruct Hinv as (lo & up & sw & fw & _ & _ & Hsw & Hfw & _ & Hwin & Hs20 & Hf5).
  destruct (calls_parameter_ranges cs default_detector s0
              default_parameter_ranges Hrun)
    as (md & pl & pd' & _ & Hpl & Hpd' & Hl10 & _).
  split; [reflexivity|]. split.
  - intros b s' H.
    destruct (detect_plateau_returns (with_data df s0) df sw fw b s'
                eq_refl Hsw Hfw H) as [Hs Hf].
    rewrite (detect_plateau_fits (with_data df s0) df sw fw pd pl
               eq_refl Hsw Hfw Hpd Hpl Hs Hf) in H.
    injection H as <- <-.
    eexists. split; [reflexivity|]. split; [reflexivity|].
    split; [reflexivity|].
    cbn [plateau_alert with_plateau_alert]. f_equal.
    rewrite plateau_scan_zero_delta by (assumption || lia).
    rewrite (delta_col_length sw fw (values df) Hs Hf). reflexivity.
  - intros sw' Hsw' Hle.
    assert (sw' = sw) by congruence. subst sw'.
    eexists.
    apply (detect_plateau_fits (with_data df s0) df sw fw pd pl);
      try assumption; try reflexivity; lia.
Qed.

Lemma plateau_delta_zero_never_alerts_witness :
  exists s' df',
    detect_plateau
      (with_data (frame_of (repeat 500 25))
         (with_plateau_length 10
            (with_plateau_delta (inject_Z 0) default_detector)))
    = Return true s' /\
    data s' = Some df' /\ plateau_alert df' = Some (repeat 0%Z 25).
Proof.
  destruct (plateau_delta_zero_never_alerts
              [Call_set_plateau_delta (PyInt 0);
               Call_set_plateau_length (PyInt 10)]
              (with_plateau_length 10
                 (with_plateau_delta (inject_Z 0) default_detector))
              (frame_of (repeat 500 25)) (inject_Z 0)
              eq_refl eq_refl eq_refl) as (_ & Hret & Hruns).
  destruct (Hruns 20%Z eq_refl) as [s' Hrun].
  - vm_compute. discriminate.
  - destruct (Hret true s' Hrun) as (df' & _ & Hd & _ & Hp).
    exists s', df'. split; [exact Hrun|]. split; [exact Hd | exact Hp].
Defined.

(** ** The composer *)

Lemma bool_eq_one_id (b : bool) : bool_eq_one b = b.
Proof. destruct b; reflexivity. Qed.

Lemma alert_col_length (m sl p : list Z) (n : nat) :
  length m = n -> length sl = n -> length p = n ->
  length (alert_col m sl p) = n.
Proof.
  intros Hm Hs Hp. unfold alert_col.
  rewrite map2_length; rewrite !length_map, map2_length;
    rewrite !length_map; congruence.
Qed.

Lemma alert_col_nth (m sl p : list Z) (n i : nat) :
  length m = n -> length sl = n -> length p = n -> (i < n)%nat ->
  nth i (alert_col m sl p) false
  = eq_one (nth i m 0%Z) || eq_one (nth i sl 0%Z) || eq_one (nth i p 0%Z).
Proof.
  intros Hm Hs Hp Hi. unfold alert_col.
  assert (L1 : length (map2 orb (map eq_one m) (map eq_one sl)) = n)
    by (rewrite map2_length; rewrite !length_map; congruence).
  rewrite (map2_nth orb _ _ i false false false)
    by (rewrite !length_map; lia).
  change false with (bool_eq_one false) at 1.
  rewrite map_nth, bool_eq_one_id.
  rewrite (map2_nth orb _ _ i false false false)
    by (rewrite !length_map; lia).
  change false with (eq_one 0%Z).
  rewrite !map_nth. reflexivity.
Qed.

Lemma detect_all_fits s df lo up sw fw md pd pl :
  data s = Some df ->
  lower_limit s = Some lo -> upper_limit s = Some up ->
  slow_mavg_window s = Some sw -> fast_mavg_window s = Some fw ->
  mavg_delta s = Some md ->
  plateau_delta s = Some pd -> plateau_length s = Some pl ->
  (1 <= sw <= Z.of_nat (length (values df)))%Z ->
  (1 <= fw <= Z.of_nat (length (values df)))%Z ->
  let m := map (maxmin_flag lo up) (values df) in
  let sl := map (slope_flag md) (delta_col sw fw (values df)) in
  let p := plateau_scan pd pl 0 (delta_col sw fw (values df)) in
  let sr := with_data (with_maxmin_alert m df) s in
  let ss := with_data
              (with_delta_ma_alert sl
                 (mavg_frame sw fw (with_maxmin_alert m df))) sr in
  let sp := with_data
              (with_plateau_alert p
                 (mavg_frame sw fw
                    (with_delta_ma_alert sl
                       (mavg_frame sw fw (with_maxmin_alert m df))))) ss in
  detect_maxmin_rupture s = Return true sr /\
  detect_fast_slope sr = Return true ss /\
  detect_plateau ss = Return true sp /\
  exists s',
    detect_all s = Return true s' /\
    column_of maxmin_alert s' = Some m /\
    column_of delta_ma_alert s' = Some sl /\
    column_of plateau_alert s' = Some p /\
    column_of alert s' = Some (alert_col m sl p) /\
    option_map values (data s') = Some (values df).
Proof.
  intros Hd Hlo Hup Hsw Hfw Hmd Hpd Hpl Hs Hf m sl p sr ss sp.
  pose proof (delta_col_length sw fw (values df) Hs Hf) as Ld.
  assert (Lm : length m = length (values df)) by apply length_map.
  assert (Lsl : length sl = length (values df))
    by (unfold sl; rewrite length_map; exact Ld).
  assert (Lp : length p = length (values df))
    by (unfold p; rewrite plateau_scan_length; exact Ld).
  assert (Hr : detect_maxmin_rupture s = Return true sr)
    by (apply detect_maxmin_rupture_run; assumption).
  assert (Hsl : detect_fast_slope sr = Return true ss)
    by (apply (detect_fast_slope_fits sr (with_maxmin_alert m df) sw fw md
                 eq_refl Hsw Hfw Hmd Hs Hf)).
  assert (Hp : detect_plateau ss = Return true sp)
    by (apply (detect_plateau_fits ss
                 (with_delta_ma_alert sl
                    (mavg_frame sw fw (with_maxmin_alert m df)))
                 sw fw pd pl eq_refl Hsw Hfw Hpd Hpl Hs Hf)).
  split; [exact Hr|]. split; [exact Hsl|]. split; [exact Hp|].
  set (dfp := with_plateau_alert p
                (mavg_frame sw fw
                   (with_delta_ma_alert sl
                      (mavg_frame sw fw (with_maxmin_alert m df))))) in *.
  set (c1 := map2 orb (map eq_one m) (map eq_one sl)).
  assert (L1 : length c1 = length (values df))
    by (unfold c1; rewrite map2_length; rewrite !length_map; congruence).
  exists (with_data (with_alert (alert_col m sl p) (with_alert c1 dfp)) sp).
  split.
  - unfold detect_all.
    rewrite (bind_Return _ _ _ _ _ Hr), (bind_Return _ _ _ _ _ Hsl),
      (bind_Return _ _ _ _ _ Hp).
    rewrite (bind_Return _ _ _ _ _
               (column_ok maxmin_alert sp dfp m eq_refl eq_refl)).
    rewrite (bind_Return _ _ _ _ _
               (column_ok delta_ma_alert sp dfp sl eq_refl eq_refl)).
    rewrite (bind_Return _ _ _ _ _
               (assign_ok with_alert c1 sp dfp eq_refl L1)).
    set (sp1 := with_data (with_alert c1 dfp) sp).
    rewrite (bind_Return _ _ _ _ _
               (column_ok alert sp1 (with_alert c1 dfp) c1 eq_refl eq_refl)).
    rewrite (bind_Return _ _ _ _ _
               (column_ok plateau_alert sp1 (with_alert c1 dfp) p
                  eq_refl eq_refl)).
    rewrite (bind_Return _ _ _ _ _
               (assign_ok with_alert (alert_col m sl p) sp1
                  (with_alert c1 dfp) eq_refl
                  (alert_col_length m sl p _ Lm Lsl Lp))).
    reflexivity.
  - repeat split; reflexivity.
Qed.

(** C6.  On a configured detector with a loaded series, whenever
    [detect_all] returns, the rupture, slope and plateau rules have run in
    that order within the call, yielding the columns [m], [sl] and [p],
    each entry of which is 0 or 1; the final frame holds exactly these
    three columns and the column [alert], and at every index [alert[i]]
    is true exactly when [m[i] = 1] or [sl[i] = 1] or [p[i] = 1].
    [detect_all] does return when both windows are between 1 and the
    series' length. *)
Theorem detect_all_alert_is_or :
  forall (s : AlertDetector) (df : DataFrame) (lo : Q) (up : bound)
         (sw fw : Z) (md pd : Q) (pl : Z),
    data s = Some df ->
    lower_limit s = Some lo -> upper_limit s = Some up ->
    slow_mavg_window s = Some sw -> fast_mavg_window s = Some fw ->
    mavg_delta s = Some md ->
    plateau_delta s = Some pd -> plateau_length s = Some pl ->
    (forall b s',
        detect_all s = Return b s' ->
        exists sr ss sp m sl p a,
          b = true /\
          detect_maxmin_rupture s = Return true sr /\
          detect_fast_slope sr = Return true ss /\
          detect_plateau ss = Return true sp /\
          column_of maxmin_alert sr = Some m /\
          column_of delta_ma_alert ss = Some sl /\
          column_of plateau_alert sp = Some p /\
          column_of maxmin_alert s' = Some m /\
          column_of delta_ma_alert s' = Some sl /\
          column_of plateau_alert s' = Some p /\
          column_of alert s' = Some a /\
          length m = length (values df) /\
          length sl = length (values df) /\
          length p = length (values df) /\
          length a = length (values df) /\
          forall i, (i < length (values df))%nat ->
            (nth i m 0%Z = 0%Z \/ nth i m 0%Z = 1%Z) /\
            (nth i sl 0%Z = 0%Z \/ nth i sl 0%Z = 1%Z) /\
            (nth i p 0%Z = 0%Z \/ nth i p 0%Z = 1%Z) /\
            (nth i a false = true <->
               nth i m 0%Z = 1%Z \/ nth i sl 0%Z = 1%Z \/ nth i p 0%Z = 1%Z) /\
            (nth i a false = false <->
               nth i m 0%Z = 0%Z /\ nth i sl 0%Z = 0%Z /\ nth i p 0%Z = 0%Z)) /\
    ((1 <= sw <= Z.of_nat (length (values df)))%Z ->
     (1 <= fw <= Z.of_nat (length (values df)))%Z ->
     exists s', detect_all s = Return true s').
Proof.
  intros s df lo up sw fw md pd pl Hd Hlo Hup Hsw Hfw Hmd Hpd Hpl. split.
  - intros b s' H.
    assert (Hfit : (1 <= sw <= Z.of_nat (length (values df)))%Z /\
                   (1 <= fw <= Z.of_nat (length (values df)))%Z).
    { unfold detect_all in H.
      rewrite (bind_Return _ _ _ _ _
                 (detect_maxmin_rupture_run s df lo up Hd Hlo Hup)) in H.
      apply bind_Return_inv in H. destruct H as (b1 & s1 & H & _).
      exact (detect_fast_slope_returns
               (with_data
                  (with_maxmin_alert (map (maxmin_flag lo up) (values df)) df)
                  s)
               (with_maxmin_alert (map (maxmin_flag lo up) (values df)) df)
               sw fw b1 s1 eq_refl Hsw Hfw H). }
    destruct Hfit as [Hs Hf].
    destruct (detect_all_fits s df lo up sw fw md pd pl
                Hd Hlo Hup Hsw Hfw Hmd Hpd Hpl Hs Hf)
      as (Hr & Hsl & Hp & s'' & Hall & Cm & Csl & Cp & Ca & _).
    rewrite Hall in H. injection H as <- <-.
    pose proof (delta_col_length sw fw (values df) Hs Hf) as Ld.
    assert (Lm : length (map (maxmin_flag lo up) (values df))
                 = length (values df)) by apply length_map.
    assert (Lsl : length (map (slope_flag md) (delta_col sw fw (values df)))
                  = length (values df))
      by (rewrite length_map; exact Ld).
    assert (Lp : length (plateau_scan pd pl 0 (delta_col sw fw (values df)))
                 = length (values df))
      by (rewrite plateau_scan_length; exact Ld).
    do 3 eexists.
    exists (map (maxmin_flag lo up) (values df)),
      (map (slope_flag md) (delta_col sw fw (values df))),
      (plateau_scan pd pl 0 (delta_col sw fw (values df))).
    eexists.
    split; [reflexivity|]. split; [exact Hr|]. split; [exact Hsl|].
    split; [exact Hp|].
    split; [reflexivity|]. split; [reflexivity|]. split; [reflexivity|].
    split; [exact Cm|]. split; [exact Csl|]. split; [exact Cp|].
    split; [exact Ca|].
    split; [exact Lm|]. split; [exact Lsl|]. split; [exact Lp|].
    split; [exact (alert_col_length _ _ _ _ Lm Lsl Lp)|].
    intros i Hi.
    rewrite (alert_col_nth _ _ _ _ i Lm Lsl Lp Hi).
    assert (Bm : nth i (map (maxmin_flag lo up) (values df)) 0%Z = 0%Z \/
                 nth i (map (maxmin_flag lo up) (values df)) 0%Z = 1%Z).
    { rewrite (nth_indep _ 0%Z (maxmin_flag lo up 0)) by (rewrite Lm; exact Hi).
      rewrite map_nth. unfold maxmin_flag.
      destruct (Qltb _ lo || bound_gtb _ up); [right | left]; reflexivity. }
    assert (Bsl : nth i (map (slope_flag md) (delta_col sw fw (values df)))
                    0%Z = 0%Z \/
                  nth i (map (slope_flag md) (delta_col sw fw (values df)))
                    0%Z = 1%Z).
    { rewrite (nth_indep _ 0%Z (slope_flag md 0)) by (rewrite Lsl; exact Hi).
      rewrite map_nth. unfold slope_flag.
      destruct (Qltb _ _ || Qltb md _); [right | left]; reflexivity. }
    assert (Bp : nth i (plateau_scan pd pl 0 (delta_col sw fw (values df)))
                   0%Z = 0%Z \/
                 nth i (plateau_scan pd pl 0 (delta_col sw fw (values df)))
                   0%Z = 1%Z).
    { rewrite plateau_scan_nth by lia.
      destruct (pl <? _)%Z; [right | left]; reflexivity. }
    split; [exact Bm|]. split; [exact Bsl|]. split; [exact Bp|].
    unfold eq_one. split.
    + rewrite !orb_true_iff, !Z.eqb_eq. tauto.
    + rewrite !orb_false_iff, !Z.eqb_neq. split.
      * intros [[Nm Nsl] Np].
        destruct Bm as [Zm|Om]; [|contradiction].
        destruct Bsl as [Zsl|Osl]; [|contradiction].
        destruct Bp as [Zp|Op]; [|contradiction].
        repeat split; assumption.
      * intros (Zm & Zsl & Zp). rewrite Zm, Zsl, Zp.
        repeat split; discriminate.
  - intros Hs Hf.
    destruct (detect_all_fits s df lo up sw fw md pd pl
                Hd Hlo Hup Hsw Hfw Hmd Hpd Hpl Hs Hf)
      as (_ & _ & _ & s' & Hall & _).
    exists s'. exact Hall.
Qed.

Lemma detect_all_alert_is_or_witness :
  exists s' a,
    detect_all (with_data (frame_of readings_50_500_2000) default_detector)
      = Return true s' /\
    column_of alert s' = Some a /\
    nth 0 a false = true /\ nth 5 a false = false.
Proof.
  destruct (detect_all_alert_is_or
              (with_data (frame_of readings_50_500_2000) default_detector)
              (frame_of readings_50_500_2000)
              (inject_Z 100) (Finite (inject_Z 1300)) 20 5
              (inject_Z 70) (inject_Z 2) 2000
              eq_refl eq_refl eq_refl eq_refl eq_refl eq_refl eq_refl eq_refl)
    as [Hret Hruns].
  destruct Hruns as [s' Hrun].
  - vm_compute. split; discriminate.
  - vm_compute. split; discriminate.
  - destruct (Hret true s' Hrun)
      as (sr & ss & sp & m & sl & p & a & _ & _ & _ & _ & _ & _ & _
          & Cm & Csl & Cp & Ca & _ & _ & _ & _ & Hor).
    exists s', a. split; [exact Hrun|]. split; [exact Ca|].
    vm_compute in Hrun. injection Hrun as <-.
    vm_compute in Cm. injection Cm as <-.
    vm_compute in Csl. injection Csl as <-.
    vm_compute in Cp. injection Cp as <-.
    assert (L : forall i, (i < 25)%nat ->
              (i < length (values (frame_of readings_50_500_2000)))%nat)
      by (intros i Hi; vm_compute; lia).
    split.
    + destruct (Hor 0%nat (L 0%nat ltac:(lia))) as (_ & _ & _ & [_ H1] & _).
      apply H1. left. reflexivity.
    + destruct (Hor 5%nat (L 5%nat ltac:(lia))) as (_ & _ & _ & _ & [_ H0]).
      apply H0. repeat split.
Defined.

(** ** Auto-tuning *)

Section AutoTuneFacts.

Variable np_sqrt : Q -> Q.


End AutoTuneFacts.





(** * Further properties *)

(** ** Detection leaves settings and readings alone *)

Lemma same_settings_refl s : same_settings s s.
Proof. repeat split; reflexivity. Qed.

Lemma same_settings_trans s1 s2 s3 :
  same_settings s1 s2 -> same_settings s2 s3 -> same_settings s1 s3.
Proof.
  unfold same_settings. intros H1 H2.
  decompose [and] H1. decompose [and] H2.
  repeat split; congruence.
Qed.

Lemma keeps_ret {A} (a : A) : keeps_settings (ret a).
Proof. intros s. apply same_settings_refl. Qed.

Lemma keeps_raise {A} (e : exn) : keeps_settings (@raise A e).
Proof. intros s. apply same_settings_refl. Qed.

Lemma keeps_bind {A B} (m : M A) (f : A -> M B) :
  keeps_settings m -> (forall a, keeps_settings (f a)) ->
  keeps_settings (bind m f).
Proof.
  intros Hm Hf s. unfold bind. specialize (Hm s).
  destruct (m s) as [a s1|e s1]; simpl in *; [|exact Hm].
  eapply same_settings_trans; [exact Hm | apply Hf].
Qed.

Lemma keeps_getattr {A} (attr : AlertDetector -> option A) :
  keeps_settings (getattr attr).
Proof.
  intros s. unfold getattr. destruct (attr s); apply same_settings_refl.
Qed.

Lemma keeps_data_values : keeps_settings data_values.
Proof.
  intros s. unfold data_values. destruct (data s); apply same_settings_refl.
Qed.

Lemma keeps_data_object : keeps_settings data_object.
Proof.
  intros s. unfold data_object. destruct (data s); apply same_settings_refl.
Qed.

Lemma keeps_column {A} (col : DataFrame -> option A) :
  keeps_settings (column col).
Proof.
  intros s. unfold column. destruct (data s) as [df|];
    [destruct (col df)|]; apply same_settings_refl.
Qed.

Lemma keeps_assign {A} (upd : list A -> DataFrame -> DataFrame) (c : list A) :
  (forall df, values (upd c df) = values df) ->
  keeps_settings (assign upd c).
Proof.
  intros Hv s. unfold assign. destruct (data s) as [df|] eqn:Hd;
    [|apply same_settings_refl].
  destruct (length c =? length (values df))%nat;
    [|apply same_settings_refl].
  simpl. repeat split. rewrite Hd. simpl. rewrite Hv. reflexivity.
Qed.

Lemma keeps_mapM {A B} (f : A -> M B) (xs : list A) :
  (forall x, keeps_settings (f x)) -> keeps_settings (mapM f xs).
Proof.
  intros Hf. induction xs as [|x xs IH]; simpl; [apply keeps_ret|].
  apply keeps_bind; [apply Hf|]. intros y.
  apply keeps_bind; [exact IH|]. intros ys. apply keeps_ret.
Qed.

Lemma keeps_foldM {A B} (f : B -> A -> M B) (xs : list A) :
  (forall b x, keeps_settings (f b x)) ->
  forall acc, keeps_settings (foldM f acc xs).
Proof.
  intros Hf. induction xs as [|x xs IH]; intros acc; simpl;
    [apply keeps_ret|].
  apply keeps_bind; [apply Hf|]. intros acc'. apply IH.
Qed.

Create HintDb keeps discriminated.

Ltac keeps :=
  repeat
    match goal with
    | |- keeps_settings (ret _) => apply keeps_ret
    | |- keeps_settings (raise _) => apply keeps_raise
    | |- keeps_settings (getattr _) => apply keeps_getattr
    | |- keeps_settings data_values => apply keeps_data_values
    | |- keeps_settings data_object => apply keeps_data_object
    | |- keeps_settings (column _) => apply keeps_column
    | |- keeps_settings (assign _ _) =>
        apply keeps_assign; intros; reflexivity
    | |- keeps_settings (bind _ _) => apply keeps_bind; [|intros ?]
    | |- keeps_settings _ => solve [auto with keeps]
    end.

Lemma keeps_moving_average (w : Z) : keeps_settings (__moving_average__ w).
Proof.
  unfold __moving_average__. keeps.
  destruct a as [|x vs]; keeps.
  destruct (w <? 0)%Z; keeps.
  destruct (np_convolve_valid _ _); keeps.
Qed.

#[local] Hint Resolve keeps_moving_average : keeps.

Lemma keeps_mavg_calc : keeps_settings __mavg_calc__.
Proof. unfold __mavg_calc__. keeps. Qed.

#[local] Hint Resolve keeps_mavg_calc : keeps.

Lemma keeps_detect_maxmin_rupture : keeps_settings detect_maxmin_rupture.
Proof.
  unfold detect_maxmin_rupture. keeps.
  apply keeps_mapM. intros v. unfold __maxmin_calc__. keeps.
  destruct (Qltb v a0); keeps.
  destruct (bound_gtb v a1); keeps.
Qed.

Lemma keeps_detect_fast_slope : keeps_settings detect_fast_slope.
Proof.
  unfold detect_fast_slope. keeps.
  apply keeps_mapM. intros x. unfold __mavg_delta_calc__. keeps.
  destruct (Qltb x _); keeps.
  destruct (Qltb _ x); keeps.
Qed.

Lemma keeps_detect_plateau : keeps_settings detect_plateau.
Proof.
  unfold detect_plateau. keeps.
  apply keeps_foldM. intros acc x. unfold plateau_row. keeps.
Qed.

#[local] Hint Resolve keeps_detect_maxmin_rupture keeps_detect_fast_slope
  keeps_detect_plateau : keeps.

Lemma keeps_detect_all : keeps_settings detect_all.
Proof. unfold detect_all. keeps. Qed.

(** X1.  Every detection method, on every path - normal return or
    exception - leaves the seven settings and the readings as they were:
    detection only adds or overwrites derived columns. *)
Theorem detection_keeps_settings :
  keeps_settings detect_maxmin_rupture /\
  keeps_settings detect_fast_slope /\
  keeps_settings detect_plateau /\
  keeps_settings detect_all.
Proof.
  split; [exact keeps_detect_maxmin_rupture|].
  split; [exact keeps_detect_fast_slope|].
  split; [exact keeps_detect_plateau | exact keeps_detect_all].
Qed.

(** ** The invariant of a detector in use *)

Lemma call_data (c : setter_call) s b s' :
  call c s = Return b s' -> data s' = data s.
Proof.
  intros H. destruct c as [v|v|v|v|v|v|v]; run_setter_in H.
  - destruct (as_number v); [|injection H as _ <-; reflexivity].
    destruct (upper_limit s) eqn:Hup; simpl in H.
    + rewrite Hup in H. destruct (bound_leb _ _); injection H as _ <-;
        reflexivity.
    + injection H as _ <-. reflexivity.
  - destruct (as_number v); [|injection H as _ <-; reflexivity].
    destruct (lower_limit s); [|discriminate].
    destruct (Qle_bool _ _); injection H as _ <-; reflexivity.
  - destruct (as_int v) as [w|]; [|injection H as _ <-; reflexivity].
    destruct (fast_mavg_window s) eqn:Hfw; simpl in H.
    + rewrite Hfw in H. destruct (w <=? _)%Z;
        [injection H as _ <-; reflexivity|].
      destruct (w <? 20)%Z; injection H as _ <-; reflexivity.
    + destruct (w <=? 5)%Z; [injection H as _ <-; reflexivity|].
      destruct (w <? 20)%Z; injection H as _ <-; reflexivity.
  - destruct (as_int v) as [w|]; [|injection H as _ <-; reflexivity].
    destruct (slow_mavg_window s); [|discriminate].
    destruct (_ <=? w)%Z; [injection H as _ <-; reflexivity|].
    destruct (w <? 5)%Z; injection H as _ <-; reflexivity.
  - destruct (as_number v); [|injection H as _ <-; reflexivity].
    simpl in H. injection H as _ <-. reflexivity.
  - destruct (as_int v) as [n|]; [|injection H as _ <-; reflexivity].
    destruct (n <? 10)%Z; injection H as _ <-; reflexivity.
  - destruct (as_number v) as [d|]; [|injection H as _ <-; reflexivity].
    destruct (Qltb d 0); injection H as _ <-; reflexivity.
Qed.

Lemma calls_data (cs : list setter_call) :
  forall s s', calls cs s = Return tt s' -> data s' = data s.
Proof.
  induction cs as [|c cs IH]; intros s s' H.
  - injection H as <-. reflexivity.
  - simpl in H. apply bind_Return_inv in H.
    destruct H as (b & s1 & Hc & Hrest).
    rewrite (IH _ _ Hrest). exact (call_data _ _ _ _ Hc).
Qed.

Lemma calls_api_invariant (cs : list setter_call) s :
  api_invariant s ->
  exists s', calls cs s = Return tt s' /\ api_invariant s'.
Proof.
  intros (Hr & Hp & Hd).
  destruct (calls_relational_invariants cs s Hr) as (s' & Hrun & Hr').
  exists s'. split; [exact Hrun|]. split; [exact Hr'|]. split.
  - exact (calls_parameter_ranges cs s s' Hp Hrun).
  - rewrite (calls_data cs s s' Hrun). exact Hd.
Qed.

Lemma same_settings_api_invariant s s' :
  same_settings s s' -> api_invariant s -> api_invariant s'.
Proof.
  intros (E1 & E2 & E3 & E4 & E5 & E6 & E7 & E8) (Hr & Hp & Hd).
  split; [|split].
  - destruct Hr as (lo & up & sw & fw & H).
    exists lo, up, sw, fw. rewrite E1, E2, E3, E4. exact H.
  - destruct Hp as (md & pl & pd & H).
    exists md, pl, pd. rewrite E5, E6, E7. exact H.
  - intros df' Hd'. rewrite Hd' in E8.
    destruct (data s) as [df|]; [|discriminate].
    injection E8 as E8. rewrite E8. apply Hd. reflexivity.
Qed.

Lemma auto_tune_as_calls (np_sqrt : Q -> Q) s df :
  data s = Some df ->
  auto_tune np_sqrt s
  = calls
      [Call_set_lower_limit
         (PyFloat (np_mean (values df)
                   - (5 # 2) * np_std np_sqrt (values df)));
       Call_set_upper_limit
         (PyFloat (np_mean (values df)
                   + (5 # 2) * np_std np_sqrt (values df)));
       Call_set_mavg_delta
         (PyFloat ((1 # 10)
                   * (np_mean (values df)
                      + (5 # 2) * np_std np_sqrt (values df)
                      - (np_mean (values df)
                         - (5 # 2) * np_std np_sqrt (values df)))))] s.
Proof.
  intros Hd. unfold auto_tune.
  rewrite (bind_Return _ _ _ _ _ (data_values_ok s df Hd)).
  rewrite (bind_Return _ _ _ _ _ (data_values_ok s df Hd)).
  reflexivity.
Qed.

Lemma api_step_invariant (np_sqrt : Q -> Q) (c : api_call) s :
  api_invariant s -> api_invariant (api_step np_sqrt s c).
Proof.
  intros Hinv. destruct c as [c|arg| | | | |]; simpl.
  - destruct (calls_api_invariant [c] s Hinv) as (s' & Hrun & H').
    simpl in Hrun. apply bind_Return_inv in Hrun.
    destruct Hrun as (b & s1 & Hc & Hret). injection Hret as <-.
    rewrite Hc. exact H'.
  - destruct arg as [| |df]; simpl; try exact Hinv.
    unfold bind, modify, ret.
    destruct (Nat.leb_spec (length (values df)) 20); simpl; [exact Hinv|].
    destruct Hinv as (Hr & Hp & _). split; [exact Hr|]. split; [exact Hp|].
    intros df' [= <-]. assumption.
  - exact (same_settings_api_invariant _ _
             (keeps_detect_maxmin_rupture s) Hinv).
  - exact (same_settings_api_invariant _ _ (keeps_detect_fast_slope s) Hinv).
  - exact (same_settings_api_invariant _ _ (keeps_detect_plateau s) Hinv).
  - exact (same_settings_api_invariant _ _ (keeps_detect_all s) Hinv).
  - destruct (data s) as [df|] eqn:Hd.
    + rewrite (auto_tune_as_calls np_sqrt s df Hd).
      match goal with
      | |- api_invariant (state_after (calls ?cs s)) =>
          destruct (calls_api_invariant cs s Hinv) as (s' & Hrun & H')
      end.
      rewrite Hrun. exact H'.
    + unfold auto_tune, bind, data_values. rewrite Hd. exact Hinv.
Qed.

Lemma default_api_invariant : api_invariant default_detector.
Proof.
  split; [exact default_relational_invariants|].
  split; [exact default_parameter_ranges|]. intros df H. discriminate.
Qed.

(** X2.  Whatever public methods are called on a freshly constructed
    detector, in whatever order, with arguments that are ints, finite
    floats or no numbers at all (and [auto_tune] on series whose mean and
    standard deviation are finite), and whether or not some of the calls
    raise, the detector always satisfies
    [lower_limit < upper_limit], [5 <= fast_window < slow_window],
    [slow_window >= 20], [plateau_length >= 10], [plateau_delta >= 0], and
    its series, once loaded, has more than 20 readings. *)
Theorem api_keeps_invariant :
  forall (np_sqrt : Q -> Q) (cs : list api_call),
    api_invariant (api_steps np_sqrt cs default_detector).
Proof.
  intros np_sqrt cs. unfold api_steps.
  generalize default_detector default_api_invariant.
  induction cs as [|c cs IH]; intros s Hs; simpl; [exact Hs|].
  apply IH. apply api_step_invariant. exact Hs.
Qed.

(** ** A window longer than the series *)

Lemma moving_average_too_long (w : Z) s df :
  data s = Some df -> values df <> [] ->
  (Z.of_nat (length (values df)) < w)%Z ->
  exists col,
    __moving_average__ w s = Return col s /\
    length col <> length (values df).
Proof.
  intros Hd Hne Hw.
  unfold __moving_average__, bind, data_values, raise, ret. rewrite Hd.
  cbv beta iota.
  destruct (values df) as [|x vs] eqn:Hvs; [congruence|].
  rewrite Hd. cbv beta iota. rewrite Hvs.
  destruct (Z.ltb_spec w 0) as [Hneg|_]; [lia|].
  destruct (np_convolve_valid_ones (x :: vs) (Z.to_nat w))
    as (c & Hc & Hlen & _); [discriminate | lia |].
  rewrite Hc. eexists. split; [reflexivity|].
  rewrite length_app, length_map, repeat_length, Hlen.
  destruct (Nat.ltb_spec (length (x :: vs)) (Z.to_nat w)); lia.
Qed.

Lemma mavg_calc_too_long s df sw :
  data s = Some df -> values df <> [] ->
  slow_mavg_window s = Some sw ->
  (Z.of_nat (length (values df)) < sw)%Z ->
  __mavg_calc__ s
  = Raise ValueError (with_data (with_slow_ma (values df) df) s).
Proof.
  intros Hd Hne Hsw Hlong. unfold __mavg_calc__.
  rewrite (bind_Return _ _ _ _ _ (data_values_ok s df Hd)).
  rewrite (bind_Return _ _ _ _ _
             (assign_ok with_slow_ma (values df) s df Hd eq_refl)).
  set (df1 := with_slow_ma (values df) df).
  set (s1 := with_data df1 s).
  rewrite (bind_Return _ _ _ _ _ (getattr_ok slow_mavg_window s1 sw Hsw)).
  destruct (moving_average_too_long sw s1 df1 eq_refl Hne Hlong)
    as (col & Hma & Hlen).
  rewrite (bind_Return _ _ _ _ _ Hma).
  rewrite (bind_Raise _ _ _ _ _
             (assign_mismatch with_slow_ma col s1 df1 eq_refl Hlen)).
  reflexivity.
Qed.

Lemma detect_all_run s df lo up sw fw md pd pl :
  data s = Some df ->
  lower_limit s = Some lo -> upper_limit s = Some up ->
  slow_mavg_window s = Some sw -> fast_mavg_window s = Some fw ->
  mavg_delta s = Some md ->
  plateau_delta s = Some pd -> plateau_length s = Some pl ->
  (1 <= sw <= Z.of_nat (length (values df)))%Z ->
  (1 <= fw <= Z.of_nat (length (values df)))%Z ->
  detect_all s
  = Return true (with_data (detect_all_frame lo up sw fw md pd pl df) s).
Proof.
  intros Hd Hlo Hup Hsw Hfw Hmd Hpd Hpl Hs Hf.
  set (m := map (maxmin_flag lo up) (values df)).
  set (sl := map (slope_flag md) (delta_col sw fw (values df))).
  set (p := plateau_scan pd pl 0 (delta_col sw fw (values df))).
  pose proof (delta_col_length sw fw (values df) Hs Hf) as Ld.
  assert (Lm : length m = length (values df)) by apply length_map.
  assert (Lsl : length sl = length (values df))
    by (unfold sl; rewrite length_map; exact Ld).
  assert (Lp : length p = length (values df))
    by (unfold p; rewrite plateau_scan_length; exact Ld).
  set (sr := with_data (with_maxmin_alert m df) s).
  set (dfs := with_delta_ma_alert sl
                (mavg_frame sw fw (with_maxmin_alert m df))).
  set (ss := with_data dfs sr).
  set (dfp := with_plateau_alert p (mavg_frame sw fw dfs)).
  set (sp := with_data dfp ss).
  set (c1 := map2 orb (map eq_one m) (map eq_one sl)).
  assert (L1 : length c1 = length (values df))
    by (unfold c1; rewrite map2_length; rewrite !length_map; congruence).
  unfold detect_all.
  rewrite (bind_Return _ _ _ _ _
             (detect_maxmin_rupture_run s df lo up Hd Hlo Hup)).
  fold m. fold sr.
  rewrite (bind_Return _ _ _ _ _
             (detect_fast_slope_fits sr (with_maxmin_alert m df) sw fw md
                eq_refl Hsw Hfw Hmd Hs Hf)).
  rewrite (bind_Return _ _ _ _ _
             (detect_plateau_fits ss dfs sw fw pd pl
                eq_refl Hsw Hfw Hpd Hpl Hs Hf)).
  rewrite (bind_Return _ _ _ _ _
             (column_ok maxmin_alert sp dfp m eq_refl eq_refl)).
  rewrite (bind_Return _ _ _ _ _
             (column_ok delta_ma_alert sp dfp sl eq_refl eq_refl)).
  rewrite (bind_Return _ _ _ _ _
             (assign_ok with_alert c1 sp dfp eq_refl L1)).
  set (sp1 := with_data (with_alert c1 dfp) sp).
  rewrite (bind_Return _ _ _ _ _
             (column_ok alert sp1 (with_alert c1 dfp) c1 eq_refl eq_refl)).
  rewrite (bind_Return _ _ _ _ _
             (column_ok plateau_alert sp1 (with_alert c1 dfp) p
                eq_refl eq_refl)).
  rewrite (bind_Return _ _ _ _ _
             (assign_ok with_alert (alert_col m sl p) sp1
                (with_alert c1 dfp) eq_refl
                (alert_col_length m sl p _ Lm Lsl Lp))).
  reflexivity.
Qed.

(** X3.  On a detector that satisfies the invariant, [detect_all] without
    a series raises [AttributeError] and changes nothing; with a series at
    least [slow_window] long it returns [True]; with a shorter series it
    never returns: it raises an exception after a partial update, in which
    the [maxmin_alert] column has been written and [slow_ma] holds a copy
    of the raw readings, while no other column has been touched.  (Which
    exception is left open: the column assignment's [ValueError], or an
    error of the interpreter while it builds a very long pad.) *)
Theorem detect_all_outcomes :
  forall s : AlertDetector,
    api_invariant s ->
    (data s = None -> detect_all s = Raise AttributeError s) /\
    (forall df sw,
        data s = Some df -> slow_mavg_window s = Some sw ->
        ((sw <= Z.of_nat (length (values df)))%Z ->
         exists s', detect_all s = Return true s') /\
        ((Z.of_nat (length (values df)) < sw)%Z ->
         exists e m,
           length m = length (values df) /\
           detect_all s
           = Raise e
               (with_data
                  (with_slow_ma (values df) (with_maxmin_alert m df)) s))).
Proof.
  intros s (Hr & Hp & Hlen). split.
  - intros Hd. unfold detect_all, detect_maxmin_rupture, bind, data_object.
    rewrite Hd. reflexivity.
  - intros df sw Hd Hsw.
    destruct Hr as (lo & up & sw' & fw & Hlo & Hup & Hsw' & Hfw & _ & Hwin
                    & Hs20 & Hf5).
    assert (sw' = sw) by congruence. subst sw'.
    destruct Hp as (md & pl & pd & Hmd & Hpl & Hpd & _).
    specialize (Hlen df Hd). split.
    + intros Hfit. eexists.
      apply (detect_all_run s df lo (Finite up) sw fw md pd pl);
        try assumption; lia.
    + intros Hlong.
      exists ValueError, (map (maxmin_flag lo (Finite up)) (values df)).
      split; [apply length_map|].
      unfold detect_all.
      rewrite (bind_Return _ _ _ _ _
                 (detect_maxmin_rupture_run s df lo (Finite up) Hd Hlo Hup)).
      apply bind_Raise. unfold detect_fast_slope. apply bind_Raise.
      apply (mavg_calc_too_long
               (with_data
                  (with_maxmin_alert
                     (map (maxmin_flag lo (Finite up)) (values df)) df) s)
               (with_maxmin_alert
                  (map (maxmin_flag lo (Finite up)) (values df)) df) sw
               eq_refl); try assumption.
      intros E. simpl in E. rewrite E in Hlen. simpl in Hlen. lia.
Qed.

Lemma detect_all_outcomes_witness :
  exists e m,
    length m = 21%nat /\
    detect_all
      (with_data (frame_of readings_1_to_21)
         (with_slow_mavg_window 22 default_detector))
    = Raise e
        (with_data
           (with_slow_ma readings_1_to_21
              (with_maxmin_alert m (frame_of readings_1_to_21)))
           (with_data (frame_of readings_1_to_21)
              (with_slow_mavg_window 22 default_detector))).
Proof.
  assert (Hinv : api_invariant
                   (with_data (frame_of readings_1_to_21)
                      (with_slow_mavg_window 22 default_detector))).
  { split; [|split].
    - exists (inject_Z 100), (inject_Z 1300), 22%Z, 5%Z.
      repeat split; try reflexivity; try lia.
    - exists (inject_Z 70), 2000%Z, (inject_Z 2).
      repeat split; try reflexivity; try lia. unfold Qle; simpl; lia.
    - intros df [= <-]. vm_compute. lia. }
  destruct (detect_all_outcomes _ Hinv) as [_ H].
  destruct (H (frame_of readings_1_to_21) 22%Z eq_refl eq_refl) as [_ Hlong].
  apply Hlong. vm_compute. reflexivity.
Defined.

Lemma detect_all_frame_values lo up sw fw md pd pl (df2 df : DataFrame) :
  values df2 = values df ->
  detect_all_frame lo up sw fw md pd pl df2
  = detect_all_frame lo up sw fw md pd pl df.
Proof.
  intros Hv.
  destruct df2 as [v2 a2 b2 c2 d2 e2 f2 g2]. destruct df as [v a b c d e f g].
  cbn [values] in Hv. subst v2. reflexivity.
Qed.

(** X4.  When both windows fit, [detect_all] recomputes every derived
    column from the readings and the settings alone: two detectors with
    the same settings and the same readings end with the same frame,
    whatever derived columns they held before, and running [detect_all]
    again on its own result changes nothing. *)
Theorem detect_all_overwrites_and_is_idempotent :
  forall (s : AlertDetector) (df : DataFrame) (lo : Q) (up : bound)
         (sw fw : Z) (md pd : Q) (pl : Z),
    data s = Some df ->
    lower_limit s = Some lo -> upper_limit s = Some up ->
    slow_mavg_window s = Some sw -> fast_mavg_window s = Some fw ->
    mavg_delta s = Some md ->
    plateau_delta s = Some pd -> plateau_length s = Some pl ->
    (1 <= sw <= Z.of_nat (length (values df)))%Z ->
    (1 <= fw <= Z.of_nat (length (values df)))%Z ->
    exists F,
      detect_all s = Return true (with_data F s) /\
      (forall df2,
          values df2 = values df ->
          detect_all (with_data df2 s) = Return true (with_data F s)) /\
      detect_all (with_data F s) = Return true (with_data F s).
Proof.
  intros s df lo up sw fw md pd pl Hd Hlo Hup Hsw Hfw Hmd Hpd Hpl Hs Hf.
  exists (detect_all_frame lo up sw fw md pd pl df).
  assert (Hany : forall df2, values df2 = values df ->
            detect_all (with_data df2 s)
            = Return true
                (with_data (detect_all_frame lo up sw fw md pd pl df) s)).
  { intros df2 Hv.
    rewrite (detect_all_run (with_data df2 s) df2 lo up sw fw md pd pl
               eq_refl Hlo Hup Hsw Hfw Hmd Hpd Hpl)
      by (rewrite Hv; assumption).
    rewrite (detect_all_frame_values lo up sw fw md pd pl df2 df Hv).
    reflexivity. }
  split; [|split].
  - apply detect_all_run; assumption.
  - exact Hany.
  - apply (Hany (detect_all_frame lo up sw fw md pd pl df)). reflexivity.
Qed.

Lemma detect_all_overwrites_and_is_idempotent_witness :
  exists F,
    detect_all (with_data (frame_of readings_1_to_21) default_detector)
    = Return true (with_data F default_detector) /\
    detect_all (with_data F default_detector)
    = Return true (with_data F default_detector).
Proof.
  destruct (detect_all_overwrites_and_is_idempotent
              (with_data (frame_of readings_1_to_21) default_detector)
              (frame_of readings_1_to_21)
              (inject_Z 100) (Finite (inject_Z 1300)) 20 5
              (inject_Z 70) (inject_Z 2) 2000
              eq_refl eq_refl eq_refl eq_refl eq_refl eq_refl eq_refl eq_refl)
    as (F & Hrun & _ & Hagain).
  - vm_compute. split; discriminate.
  - vm_compute. split; discriminate.
  - exists F. split; [exact Hrun | exact Hagain].
Defined.

(** ** The slope rule, entry by entry *)

Lemma slope_flag_one (md x : Q) :
  slope_flag md x = 1%Z <-> x < - md \/ md < x.
Proof.
  unfold slope_flag.
  assert (E : md * -(1) == - md) by ring.
  rewrite <- (Qltb_lt md x), <- (Qltb_lt x (- md)).
  assert (E' : Qltb x (md * -(1)) = Qltb x (- md)).
  { unfold Qltb. f_equal. apply Qleb_comp; [exact E | reflexivity]. }
  rewrite E', <- orb_true_iff.
  destruct (Qltb x (- md) || Qltb md x); split; intros H;
    try reflexivity; try discriminate.
Qed.

Lemma slope_flag_zero_or_one (md x : Q) :
  slope_flag md x = 0%Z \/ slope_flag md x = 1%Z.
Proof.
  unfold slope_flag. destruct (_ || _); [right | left]; reflexivity.
Qed.

(** X5.  On a configured detector with a loaded series, whenever
    [detect_fast_slope] returns it has left a [delta_ma] column and a
    [delta_ma_alert] column, both of the series' length, and the alert at
    sample [i] is 1 exactly when [delta_ma[i] < -mavg_delta] or
    [delta_ma[i] > mavg_delta], and 0 otherwise.  It returns whenever both
    windows are between 1 and the series' length. *)
Theorem detect_fast_slope_flags :
  forall (s : AlertDetector) (df : DataFrame) (sw fw : Z) (md : Q),
    data s = Some df ->
    slow_mavg_window s = Some sw -> fast_mavg_window s = Some fw ->
    mavg_delta s = Some md ->
    (forall b s',
        detect_fast_slope s = Return b s' ->
        exists de flags,
          b = true /\
          column_of delta_ma s' = Some de /\
          column_of delta_ma_alert s' = Some flags /\
          length de = length (values df) /\
          length flags = length (values df) /\
          forall i, (i < length (values df))%nat ->
            (nth i flags 0%Z = 1%Z <->
               nth i de 0 < - md \/ md < nth i de 0) /\
            (nth i flags 0%Z = 0%Z <->
               ~ (nth i de 0 < - md \/ md < nth i de 0))) /\
    ((1 <= sw <= Z.of_nat (length (values df)))%Z ->
     (1 <= fw <= Z.of_nat (length (values df)))%Z ->
     exists s', detect_fast_slope s = Return true s').
Proof.
  intros s df sw fw md Hd Hsw Hfw Hmd. split.
  - intros b s' H.
    destruct (detect_fast_slope_returns s df sw fw b s' Hd Hsw Hfw H)
      as [Hs Hf].
    rewrite (detect_fast_slope_fits s df sw fw md Hd Hsw Hfw Hmd Hs Hf) in H.
    injection H as <- <-.
    pose proof (delta_col_length sw fw (values df) Hs Hf) as Ld.
    exists (delta_col sw fw (values df)),
      (map (slope_flag md) (delta_col sw fw (values df))).
    split; [reflexivity|]. split; [reflexivity|]. split; [reflexivity|].
    split; [exact Ld|]. split; [rewrite length_map; exact Ld|].
    intros i Hi.
    rewrite (nth_indep _ 0%Z (slope_flag md 0))
      by (rewrite length_map; lia).
    rewrite map_nth. rewrite <- slope_flag_one.
    destruct (slope_flag_zero_or_one md (nth i (delta_col sw fw (values df)) 0))
      as [E|E]; rewrite E; split; split; intros H;
      try reflexivity; try discriminate; try (exfalso; apply H; reflexivity).
  - intros Hs Hf. eexists.
    apply (detect_fast_slope_fits s df sw fw md); assumption.
Qed.

Lemma detect_fast_slope_flags_witness :
  exists s', detect_fast_slope
               (with_data (frame_of readings_1_to_21) default_detector)
             = Return true s'.
Proof.
  apply (proj2 (detect_fast_slope_flags
                  (with_data (frame_of readings_1_to_21) default_detector)
                  (frame_of readings_1_to_21) 20 5 (inject_Z 70)
                  eq_refl eq_refl eq_refl eq_refl)).
  - vm_compute. split; discriminate.
  - vm_compute. split; discriminate.
Defined.

Lemma slope_flag_negative_delta (md x : Q) : md < 0 -> slope_flag md x = 1%Z.
Proof.
  intros Hneg. apply slope_flag_one.
  destruct (Qlt_le_dec md x) as [H|H]; [right; exact H | left; lra].
Qed.

(** X6.  A negative [mavg_delta] disables the slope rule's threshold:
    [set_mavg_delta] accepts the negative number, and from then on
    [detect_fast_slope] flags every sample whose [delta_ma] entry is a
    number, that is, every sample of every series of finite readings
    whose window sums do not overflow. *)
Theorem negative_mavg_delta_flags_every_sample :
  forall (s : AlertDetector) (df : DataFrame) (sw fw : Z) (v : pyval) (d : Q),
    data s = Some df ->
    slow_mavg_window s = Some sw -> fast_mavg_window s = Some fw ->
    as_number v = Some d -> d < 0 ->
    exists s1,
      set_mavg_delta v s = Return true s1 /\
      forall b s',
        detect_fast_slope s1 = Return b s' ->
        column_of delta_ma_alert s'
        = Some (repeat 1%Z (length (values df))).
Proof.
  intros s df sw fw v d Hd Hsw Hfw Hv Hneg.
  exists (with_mavg_delta d s). split.
  - unfold set_mavg_delta. rewrite Hv. reflexivity.
  - intros b s' H.
    destruct (detect_fast_slope_returns (with_mavg_delta d s) df sw fw b s'
                Hd Hsw Hfw H) as [Hs Hf].
    rewrite (detect_fast_slope_fits (with_mavg_delta d s) df sw fw d
               Hd Hsw Hfw eq_refl Hs Hf) in H.
    injection H as <- <-.
    unfold column_of. cbn [data with_data delta_ma_alert with_delta_ma_alert].
    f_equal.
    rewrite <- (delta_col_length sw fw (values df) Hs Hf).
    induction (delta_col sw fw (values df)) as [|x xs IH]; [reflexivity|].
    simpl. rewrite (slope_flag_negative_delta d x Hneg), IH. reflexivity.
Qed.

Lemma negative_mavg_delta_flags_every_sample_witness :
  exists s1 s',
    set_mavg_delta (PyInt (-1))
      (with_data (frame_of (repeat 500 25)) default_detector)
    = Return true s1 /\
    detect_fast_slope s1 = Return true s' /\
    column_of delta_ma_alert s' = Some (repeat 1%Z 25).
Proof.
  destruct (negative_mavg_delta_flags_every_sample
              (with_data (frame_of (repeat 500 25)) default_detector)
              (frame_of (repeat 500 25)) 20 5 (PyInt (-1)) (inject_Z (-1))
              eq_refl eq_refl eq_refl eq_refl eq_refl)
    as (s1 & Hset & Hall).
  exists s1.
  injection Hset as <-.
  eexists. split; [reflexivity|].
  split; [vm_compute; reflexivity|].
  apply (Hall true). vm_compute. reflexivity.
Defined.

(** ** The plateau alert in closed form *)

Lemma spec_run_nonneg (pd : Q) (de : list Q) (i : nat) :
  (0 <= spec_run pd de i)%Z.
Proof.
  induction i as [|i IH]; cbn [spec_run];
    destruct (Qltb _ pd); lia.
Qed.

Lemma spec_run_gt (pd : Q) (de : list Q) :
  forall i k : nat,
    (Z.of_nat k < spec_run pd de i)%Z <->
    (k <= i)%nat /\
    forall j, (j <= k)%nat -> Qabs (nth (i - j) de 0) < pd.
Proof.
  induction i as [|i IH]; intros k; cbn [spec_run].
  - destruct (Qltb (Qabs (nth 0 de 0)) pd) eqn:E.
    + apply Qltb_lt in E. split.
      * intros Hk. split; [lia|]. intros j _. exact E.
      * intros [Hk _]. lia.
    + apply Qltb_ge in E. split; [lia|].
      intros [_ Hc]. specialize (Hc 0%nat (Nat.le_0_l k)).
      simpl in Hc. lra.
  - destruct (Qltb (Qabs (nth (S i) de 0)) pd) eqn:E.
    + apply Qltb_lt in E. destruct k as [|k].
      * split.
        -- intros _. split; [lia|]. intros j Hj.
           assert (j = 0%nat) by lia. subst j. exact E.
        -- intros _. pose proof (spec_run_nonneg pd de i). lia.
      * split.
        -- intros Hk.
           assert (Hk' : (Z.of_nat k < spec_run pd de i)%Z) by lia.
           apply IH in Hk'. destruct Hk' as [Hle Hc].
           split; [lia|]. intros [|j] Hj; [exact E|].
           change (S i - S j)%nat with (i - j)%nat. apply Hc. lia.
        -- intros [Hle Hc].
           assert (Hk' : (Z.of_nat k < spec_run pd de i)%Z).
           { apply IH. split; [lia|]. intros j Hj.
             specialize (Hc (S j)). apply Hc. lia. }
           lia.
    + apply Qltb_ge in E. split; [lia|].
      intros [_ Hc]. specialize (Hc 0%nat (Nat.le_0_l k)).
      simpl in Hc. lra.
Qed.

(** X8.  With [plateau_length >= 0], whenever [detect_plateau] returns,
    the plateau alert at sample [i] is 1 exactly when [i >=
    plateau_length] and each of the [plateau_length + 1] most recent
    entries [delta_ma[i - plateau_length .. i]] is smaller than
    [plateau_delta] in absolute value; otherwise it is 0.  In particular
    none of the first [plateau_length] samples is ever flagged. *)
Theorem plateau_alert_closed_form :
  forall (s : AlertDetector) (df : DataFrame) (sw fw : Z) (pd : Q) (pl : Z),
    data s = Some df ->
    slow_mavg_window s = Some sw -> fast_mavg_window s = Some fw ->
    plateau_delta s = Some pd -> plateau_length s = Some pl ->
    (0 <= pl)%Z ->
    forall r s',
      detect_plateau s = Return r s' ->
      exists de flags,
        column_of delta_ma s' = Some de /\
        column_of plateau_alert s' = Some flags /\
        forall i, (i < length (values df))%nat ->
          (nth i flags 0%Z = 1%Z \/ nth i flags 0%Z = 0%Z) /\
          (nth i flags 0%Z = 1%Z <->
             (Z.to_nat pl <= i)%nat /\
             forall j, (j <= Z.to_nat pl)%nat ->
                       Qabs (nth (i - j) de 0) < pd) /\
          ((i < Z.to_nat pl)%nat -> nth i flags 0%Z = 0%Z).
Proof.
  intros s df sw fw pd pl Hd Hsw Hfw Hpd Hpl Hnn r s' H.
  destruct (detect_plateau_returns s df sw fw r s' Hd Hsw Hfw H) as [Hs Hf].
  rewrite (detect_plateau_fits s df sw fw pd pl Hd Hsw Hfw Hpd Hpl Hs Hf) in H.
  injection H as <- <-.
  pose proof (delta_col_length sw fw (values df) Hs Hf) as Ld.
  exists (delta_col sw fw (values df)),
    (plateau_scan pd pl 0 (delta_col sw fw (values df))).
  split; [reflexivity|]. split; [reflexivity|].
  intros i Hi.
  rewrite plateau_scan_spec_run by lia.
  pose proof (spec_run_gt pd (delta_col sw fw (values df)) i (Z.to_nat pl))
    as Hgt.
  rewrite Z2Nat.id in Hgt by exact Hnn.
  destruct (Z.ltb_spec pl (spec_run pd (delta_col sw fw (values df)) i))
    as [Hlt|Hge].
  - split; [left; reflexivity|]. split.
    + split; [intros _; apply Hgt; exact Hlt | reflexivity].
    + intros Hi'. apply Hgt in Hlt. lia.
  - split; [right; reflexivity|]. split.
    + split; [discriminate|]. intros Hc. apply Hgt in Hc. lia.
    + reflexivity.
Qed.

Lemma plateau_alert_closed_form_witness :
  exists s' flags,
    detect_plateau
      (with_plateau_length 10
         (with_data (frame_of (repeat 500 25)) default_detector))
    = Return true s' /\
    column_of plateau_alert s' = Some flags /\
    nth 3 flags 0%Z = 0%Z.
Proof.
  assert (Hrun : exists s',
             detect_plateau
               (with_plateau_length 10
                  (with_data (frame_of (repeat 500 25)) default_detector))
             = Return true s')
    by (eexists; vm_compute; reflexivity).
  destruct Hrun as [s' Hrun].
  destruct (plateau_alert_closed_form
              (with_plateau_length 10
                 (with_data (frame_of (repeat 500 25)) default_detector))
              (frame_of (repeat 500 25)) 20 5 (inject_Z 2) 10
              eq_refl eq_refl eq_refl eq_refl eq_refl ltac:(lia)
              true s' Hrun)
    as (de & flags & _ & Hp & Hall).
  exists s', flags. split; [exact Hrun|]. split; [exact Hp|].
  destruct (Hall 3%nat) as (_ & _ & Hearly).
  - vm_compute. lia.
  - apply Hearly. vm_compute. lia.
Defined.

(** ** Moving both limits, and both windows *)

Ltac run_pair :=
  cbv [limits_lower_first limits_upper_first windows_fast_first
       windows_slow_first set_lower_limit set_upper_limit
       set_slow_mavg_window set_fast_mavg_window as_number as_int
       bind ret modify getattr hasattr].

(** X9.  Moving both limits to [l < u] takes the right order of the two
    setter calls.  Setting the lower limit first installs both exactly
    when [l] is below the current upper limit; otherwise its first call is
    refused and only the upper limit moves.  Setting the upper limit first
    installs both exactly when [u] is above the current lower limit;
    otherwise only the lower limit moves.  One of the two orders always
    installs both. *)
Theorem limits_setting_order :
  forall (s : AlertDetector) (lo0 up0 l u : Q),
    lower_limit s = Some lo0 -> upper_limit s = Some (Finite up0) ->
    lo0 < up0 -> l < u ->
    (l < up0 ->
     limits_lower_first l u s
     = Return (true, true) (with_upper_limit (Finite u) (with_lower_limit l s)))
    /\
    (up0 <= l ->
     limits_lower_first l u s
     = Return (false, true) (with_upper_limit (Finite u) s)) /\
    (lo0 < u ->
     limits_upper_first l u s
     = Return (true, true) (with_upper_limit (Finite u) (with_lower_limit l s)))
    /\
    (u <= lo0 ->
     limits_upper_first l u s = Return (false, true) (with_lower_limit l s))
    /\
    (l < up0 \/ lo0 < u).
Proof.
  intros s lo0 up0 l u Hlo Hup H0 Hlu.
  assert (Elu : Qle_bool u l = false) by (apply Qle_bool_gt; exact Hlu).
  split; [|split; [|split; [|split]]].
  - intros H.
    assert (E : Qle_bool up0 l = false) by (apply Qle_bool_gt; exact H).
    run_pair. rewrite Hup. cbn. rewrite Hup. cbn. rewrite E. cbn.
    rewrite Elu. reflexivity.
  - intros H.
    assert (E : Qle_bool up0 l = true) by (apply Qle_bool_iff; exact H).
    assert (E' : Qle_bool u lo0 = false) by (apply Qle_bool_gt; lra).
    run_pair. rewrite Hup. cbn. rewrite Hup. cbn. rewrite E. cbn.
    rewrite Hlo, E'. reflexivity.
  - intros H.
    assert (E : Qle_bool u lo0 = false) by (apply Qle_bool_gt; exact H).
    run_pair. rewrite Hlo, E. cbn. rewrite Elu. reflexivity.
  - intros H.
    assert (E : Qle_bool u lo0 = true) by (apply Qle_bool_iff; exact H).
    assert (E' : Qle_bool up0 l = false) by (apply Qle_bool_gt; lra).
    run_pair. rewrite Hlo, E. cbn. rewrite Hup. cbn. rewrite Hup. cbn.
    rewrite E'. reflexivity.
  - destruct (Qlt_le_dec l up0) as [H|H]; [left; exact H | right; lra].
Qed.

Lemma limits_setting_order_witness :
  limits_lower_first 2000 3000 default_detector
  = Return (false, true)
      (with_upper_limit (Finite 3000) default_detector) /\
  limits_upper_first 2000 3000 default_detector
  = Return (true, true)
      (with_upper_limit (Finite 3000)
         (with_lower_limit 2000 default_detector)).
Proof.
  destruct (limits_setting_order default_detector
              (inject_Z 100) (inject_Z 1300) 2000 3000
              eq_refl eq_refl eq_refl eq_refl)
    as (_ & Hlf & Huf & _).
  split.
  - apply Hlf. unfold Qle; simpl; lia.
  - apply Huf. reflexivity.
Defined.

(** X10.  Moving both windows to [5 <= f < w], [w >= 20] likewise depends
    on the order.  Setting the fast window first installs both exactly
    when [f] is below the current slow window; otherwise only the slow
    window moves.  Setting the slow window first installs both exactly
    when [w] is above the current fast window; otherwise only the fast
    window moves.  One of the two orders always installs both. *)
Theorem windows_setting_order :
  forall (s : AlertDetector) (sw0 fw0 w f : Z),
    slow_mavg_window s = Some sw0 -> fast_mavg_window s = Some fw0 ->
    (fw0 < sw0)%Z -> (5 <= f < w)%Z -> (20 <= w)%Z ->
    ((f < sw0)%Z ->
     windows_fast_first w f s
     = Return (true, true)
         (with_slow_mavg_window w (with_fast_mavg_window f s))) /\
    ((sw0 <= f)%Z ->
     windows_fast_first w f s
     = Return (false, true) (with_slow_mavg_window w s)) /\
    ((fw0 < w)%Z ->
     windows_slow_first w f s
     = Return (true, true)
         (with_slow_mavg_window w (with_fast_mavg_window f s))) /\
    ((w <= fw0)%Z ->
     windows_slow_first w f s
     = Return (false, true) (with_fast_mavg_window f s)) /\
    ((f < sw0)%Z \/ (fw0 < w)%Z).
Proof.
  intros s sw0 fw0 w f Hsw Hfw H0 Hf Hw.
  split; [|split; [|split; [|split]]].
  - intros H. run_pair. rewrite Hsw.
    destruct (Z.leb_spec sw0 f); [lia|].
    destruct (Z.ltb_spec f 5); [lia|]. cbn.
    destruct (Z.leb_spec w f); [lia|].
    destruct (Z.ltb_spec w 20); [lia|]. reflexivity.
  - intros H. run_pair. rewrite Hsw.
    destruct (Z.leb_spec sw0 f); [|lia]. cbn. rewrite Hfw. cbn. rewrite Hfw.
    destruct (Z.leb_spec w fw0); [lia|].
    destruct (Z.ltb_spec w 20); [lia|]. reflexivity.
  - intros H. run_pair. rewrite Hfw. cbn. rewrite Hfw.
    destruct (Z.leb_spec w fw0); [lia|].
    destruct (Z.ltb_spec w 20); [lia|]. cbn.
    destruct (Z.leb_spec w f); [lia|].
    destruct (Z.ltb_spec f 5); [lia|]. reflexivity.
  - intros H. run_pair. rewrite Hfw. cbn. rewrite Hfw.
    destruct (Z.leb_spec w fw0); [|lia]. cbn. rewrite Hsw.
    destruct (Z.leb_spec sw0 f); [lia|].
    destruct (Z.ltb_spec f 5); [lia|]. reflexivity.
  - lia.
Qed.

Lemma windows_setting_order_witness :
  windows_fast_first 60 30 default_detector
  = Return (false, true) (with_slow_mavg_window 60 default_detector) /\
  windows_slow_first 60 30 default_detector
  = Return (true, true)
      (with_slow_mavg_window 60 (with_fast_mavg_window 30 default_detector)).
Proof.
  destruct (windows_setting_order default_detector 20 5 60 30
              eq_refl eq_refl) as (_ & Hff & Hsf & _); try lia.
  split; [apply Hff; lia | apply Hsf; lia].
Defined.

(** ** Loading a series *)

(** X11.  [set_data] accepts a frame exactly when its series has more
    than 20 readings, and otherwise answers [False] and keeps the
    detector as it was.  On a detector that satisfies the invariant and
    whose slow window is at most 21 - the default 20 in particular -
    every accepted series can be analysed: [detect_all] returns [True]. *)
Theorem load_and_detect_succeeds :
  forall (s : AlertDetector) (df : DataFrame) (sw : Z),
    api_invariant s -> slow_mavg_window s = Some sw -> (sw <= 21)%Z ->
    ((20 < length (values df))%nat ->
     set_data (Frame df) s = Return true (with_data df s) /\
     exists s', load_and_detect df s = Return true s') /\
    ((length (values df) <= 20)%nat ->
     set_data (Frame df) s = Return false s /\
     load_and_detect df s = Return false s).
Proof.
  intros s df sw Hinv Hsw Hle. split.
  - intros Hlen.
    assert (Hset : set_data (Frame df) s = Return true (with_data df s)).
    { unfold set_data, bind, modify, ret.
      destruct (Nat.leb_spec (length (values df)) 20); [lia | reflexivity]. }
    split; [exact Hset|].
    unfold load_and_detect. rewrite (bind_Return _ _ _ _ _ Hset).
    destruct Hinv as (Hr & Hp & _).
    destruct Hr as (lo & up & sw' & fw & Hlo & Hup & Hsw' & Hfw & _ & Hwin
                    & Hs20 & Hf5).
    assert (sw' = sw) by congruence. subst sw'.
    destruct Hp as (md & pl & pd & Hmd & Hpl & Hpd & _).
    eexists.
    apply (detect_all_run (with_data df s) df lo (Finite up) sw fw md pd pl);
      try assumption; try reflexivity; lia.
  - intros Hlen.
    assert (Hset : set_data (Frame df) s = Return false s).
    { unfold set_data, bind, modify, ret.
      destruct (Nat.leb_spec (length (values df)) 20); [reflexivity | lia]. }
    split; [exact Hset|].
    unfold load_and_detect. rewrite (bind_Return _ _ _ _ _ Hset).
    reflexivity.
Qed.

Lemma load_and_detect_succeeds_witness :
  exists s',
    load_and_detect (frame_of readings_1_to_21) default_detector
    = Return true s'.
Proof.
  destruct (load_and_detect_succeeds default_detector
              (frame_of readings_1_to_21) 20 default_api_invariant eq_refl)
    as [Hok _]; [lia|].
  destruct Hok as [_ H]; [vm_compute; lia | exact H].
Defined.

(** ** Auto-tuning: outcomes *)

(** X12.  On a detector that satisfies the invariant, [auto_tune] raises
    [TypeError] and changes nothing while no series is loaded; with a
    series whose mean and standard deviation are finite numbers it
    returns, keeps the series, and the detector it leaves satisfies the
    invariant again: whatever finite values the statistics take, the
    limits stay ordered. *)
Theorem auto_tune_outcomes :
  forall (np_sqrt : Q -> Q) (s : AlertDetector),
    api_invariant s ->
    (data s = None -> auto_tune np_sqrt s = Raise TypeError s) /\
    (forall df,
        data s = Some df ->
        exists s',
          auto_tune np_sqrt s = Return tt s' /\
          api_invariant s' /\ data s' = Some df).
Proof.
  intros np_sqrt s Hinv. split.
  - intros Hd. unfold auto_tune, bind, data_values. rewrite Hd. reflexivity.
  - intros df Hd. rewrite (auto_tune_as_calls np_sqrt s df Hd).
    match goal with
    | |- exists s', calls ?cs s = _ /\ _ =>
        destruct (calls_api_invariant cs s Hinv) as (s' & Hrun & H');
        pose proof (calls_data cs s s' Hrun) as Hdata
    end.
    exists s'. split; [exact Hrun|]. split; [exact H'|].
    rewrite Hdata. exact Hd.
Qed.

Lemma auto_tune_outcomes_witness :
  exists s',
    auto_tune sqrt_6dec
      (with_data (frame_of readings_5000) default_detector)
    = Return tt s' /\
    api_invariant s' /\ data s' = Some (frame_of readings_5000).
Proof.
  assert (Hinv : api_invariant
                   (with_data (frame_of readings_5000) default_detector)).
  { destruct default_api_invariant as (Hr & Hp & _).
    split; [exact Hr|]. split; [exact Hp|].
    intros df [= <-]. vm_compute. lia. }
  destruct (auto_tune_outcomes sqrt_6dec _ Hinv) as [_ H].
  exact (H (frame_of readings_5000) eq_refl).
Defined.

(** ** A quiet series raises no alert *)

Lemma slope_flag_inside (md x : Q) :
  - md <= x -> x <= md -> slope_flag md x = 0%Z.
Proof.
  intros H1 H2. destruct (slope_flag_zero_or_one md x) as [E|E]; [exact E|].
  apply slope_flag_one in E. destruct E as [E|E]; lra.
Qed.

Lemma maxmin_flags_within (lo : Q) (up : bound) (vs : list Q) :
  (forall v, In v vs -> within lo up v) ->
  map (maxmin_flag lo up) vs = repeat 0%Z (length vs).
Proof.
  intros H. induction vs as [|v vs IH]; [reflexivity|].
  simpl. rewrite IH by (intros v' Hv'; apply H; right; exact Hv').
  f_equal.
  pose proof (within_not_outside _ _ _ (H v (or_introl eq_refl))) as Hw.
  destruct (maxmin_flag lo up v =? 1)%Z eqn:E.
  - apply Z.eqb_eq, maxmin_flag_one in E. contradiction.
  - unfold maxmin_flag in *.
    destruct (Qltb v lo || bound_gtb v up); [discriminate | reflexivity].
Qed.

Lemma plateau_next_bounds (pd : Q) (pcnt : Z) (x : Q) :
  (0 <= pcnt)%Z ->
  (0 <= plateau_next pd pcnt x <= pcnt + 1)%Z.
Proof.
  intros H. unfold plateau_next. destruct (Qltb (Qabs x) pd); lia.
Qed.

Lemma plateau_scan_short (pd : Q) (pl : Z) (xs : list Q) :
  forall pcnt,
    (0 <= pcnt)%Z -> (pcnt + Z.of_nat (length xs) <= pl)%Z ->
    plateau_scan pd pl pcnt xs = repeat 0%Z (length xs).
Proof.
  induction xs as [|x xs IH]; intros pcnt H0 Hlen; [reflexivity|].
  cbn [plateau_scan length repeat].
  pose proof (plateau_next_bounds pd pcnt x H0) as Hb.
  cbn [length] in Hlen.
  rewrite IH by lia.
  destruct (Z.ltb_spec pl (plateau_next pd pcnt x)); [lia | reflexivity].
Qed.

Lemma alert_col_quiet (n : nat) :
  alert_col (repeat 0%Z n) (repeat 0%Z n) (repeat 0%Z n) = repeat false n.
Proof.
  unfold alert_col. induction n as [|n IH]; [reflexivity|].
  simpl. f_equal. exact IH.
Qed.

Lemma detect_all_frame_delta_ma lo up sw fw md pd pl (df : DataFrame) :
  delta_ma (detect_all_frame lo up sw fw md pd pl df)
  = Some (delta_col sw fw (values df)).
Proof. destruct df. reflexivity. Qed.

(** X15.  No false alarm on a quiet series.  Whenever [detect_all]
    returns: if every reading lies within [[lower_limit, upper_limit]],
    every entry of the [delta_ma] column the call has stored lies within
    [[-mavg_delta, mavg_delta]], and the series has at most
    [plateau_length] readings, then the combined [alert] column is false
    at every sample. *)
Theorem quiet_series_no_alert :
  forall (s : AlertDetector) (df : DataFrame) (lo : Q) (up : bound)
         (sw fw : Z) (md pd : Q) (pl : Z),
    data s = Some df ->
    lower_limit s = Some lo -> upper_limit s = Some up ->
    slow_mavg_window s = Some sw -> fast_mavg_window s = Some fw ->
    mavg_delta s = Some md ->
    plateau_delta s = Some pd -> plateau_length s = Some pl ->
    forall (r : bool) (s' : AlertDetector) (de : list Q),
      detect_all s = Return r s' ->
      column_of delta_ma s' = Some de ->
      (forall v, In v (values df) -> within lo up v) ->
      Forall (fun x => - md <= x /\ x <= md) de ->
      (Z.of_nat (length (values df)) <= pl)%Z ->
      column_of alert s' = Some (repeat false (length (values df))).
Proof.
  intros s df lo up sw fw md pd pl Hd Hlo Hup Hsw Hfw Hmd Hpd Hpl
         r s' de H Hde Hv Hquiet Hshort.
  assert (Hfit : (1 <= sw <= Z.of_nat (length (values df)))%Z /\
                 (1 <= fw <= Z.of_nat (length (values df)))%Z).
  { unfold detect_all in H.
    rewrite (bind_Return _ _ _ _ _
               (detect_maxmin_rupture_run s df lo up Hd Hlo Hup))
      in H.
    apply bind_Return_inv in H. destruct H as (b1 & s1 & H & _).
    exact (detect_fast_slope_returns
             (with_data
                (with_maxmin_alert (map (maxmin_flag lo up) (values df)) df) s)
             (with_maxmin_alert (map (maxmin_flag lo up) (values df)) df)
             sw fw b1 s1 eq_refl Hsw Hfw H). }
  destruct Hfit as [Hs Hf].
  rewrite (detect_all_run s df lo up sw fw md pd pl
             Hd Hlo Hup Hsw Hfw Hmd Hpd Hpl Hs Hf) in H.
  injection H as <- <-.
  pose proof (delta_col_length sw fw (values df) Hs Hf) as Ld.
  unfold column_of in Hde. cbn [data with_data] in Hde.
  rewrite detect_all_frame_delta_ma in Hde. injection Hde as <-.
  unfold column_of, detect_all_frame. cbn [data with_data alert with_alert].
  f_equal.
  assert (Em : map (maxmin_flag lo up) (values df)
               = repeat 0%Z (length (values df)))
    by (apply maxmin_flags_within; exact Hv).
  assert (Esl : map (slope_flag md) (delta_col sw fw (values df))
                = repeat 0%Z (length (values df))).
  { rewrite <- Ld. clear Ld Em.
    induction Hquiet as [|x xs [H1 H2] _ IH]; [reflexivity|].
    simpl. rewrite IH. f_equal. apply slope_flag_inside; assumption. }
  assert (Ep : plateau_scan pd pl 0 (delta_col sw fw (values df))
               = repeat 0%Z (length (values df))).
  { rewrite <- Ld. apply plateau_scan_short; lia. }
  rewrite Em, Esl, Ep. apply alert_col_quiet.
Qed.

Lemma quiet_series_no_alert_witness :
  exists s',
    detect_all (with_data (frame_of (repeat 500 25)) default_detector)
    = Return true s' /\
    column_of alert s' = Some (repeat false 25).
Proof.
  assert (Hrun : exists s' de,
             detect_all (with_data (frame_of (repeat 500 25)) default_detector)
             = Return true s' /\
             column_of delta_ma s' = Some de /\
             Forall (fun x => - inject_Z 70 <= x /\ x <= inject_Z 70) de).
  { eexists. eexists. split; [vm_compute; reflexivity|].
    split; [vm_compute; reflexivity|].
    repeat constructor; vm_compute; discriminate. }
  destruct Hrun as (s' & de & Hrun & Hde & Hquiet).
  exists s'. split; [exact Hrun|].
  apply (quiet_series_no_alert
           (with_data (frame_of (repeat 500 25)) default_detector)
           (frame_of (repeat 500 25)) (inject_Z 100) (Finite (inject_Z 1300))
           20 5 (inject_Z 70) (inject_Z 2) 2000
           eq_refl eq_refl eq_refl eq_refl eq_refl eq_refl eq_refl eq_refl
           true s' de Hrun Hde).
  - intros v Hv. apply repeat_spec in Hv. subst v.
    split; vm_compute; discriminate.
  - exact Hquiet.
  - vm_compute. discriminate.
Defined.
